(** * Teaching system over a message bus: routing, workers, correlation, cost totals

    A shallow embedding of the request/response layer of the repository:

    - [src/producer.py]   language detection and topic routing,
    - [src/consumer.py]   the per-message path of an agent worker,
    - [src/agents/base_agent.py], [src/llm/base_engine.py]  the responder,
    - [src/monitor.py]    the cost monitor,
    - [cli.py]            the response listener and [ask_question].

    Conventions of the embedding.

    - A Python [str] is iterated by code point, so a text is a list of code
      points ([Z]); keys and identifiers, which are only compared for
      equality, are [string]s.
    - A Python [float] (costs, clock readings) is an exact rational [Q];
      binary rounding is not part of the model.
    - A JSON object read with [.get(key, default)] is a record of optional
      fields; a field that is present has the type its producer gives it.
    - [dict]s keyed by strings are [gmap string _].
    - Code under [try/except] runs in the exception monad [Exc]; code that
      also talks to the broker threads a [world] through it.
    - The broker, the language detector, the language model, the server of
      Ollama, the validation library, the clock and the schedule of the
      threads are the environment: they enter as oracles, readings and
      schedules. *)

From Stdlib Require Import ZArith QArith Lqa Lia String Ascii List Bool.
From stdpp Require Import gmap strings list fin_maps.
From stdpp Require Import pretty.

Import ListNotations.
Local Open Scope string_scope.
Local Open Scope Z_scope.

(** ** Exceptions *)

Inductive Exc (A : Type) : Type :=
| Ok (a : A)
| Raise (e : string).
Arguments Ok {A} a.
Arguments Raise {A} e.

Definition exc_bind {A B} (m : Exc A) (k : A -> Exc B) : Exc B :=
  match m with
  | Ok a => k a
  | Raise e => Raise e
  end.

(** [try: body except Exception as e: handler e] *)
Definition try_except {A} (body : Exc A) (handler : string -> Exc A) : Exc A :=
  match body with
  | Ok a => Ok a
  | Raise e => handler e
  end.

Declare Scope exc_scope.
Delimit Scope exc_scope with exc.
Notation "'do' x <- m ; k" := (exc_bind m (fun x => k))
  (at level 10, x name, m at level 100, k at level 200) : exc_scope.

(** ** [src/core/models.py] *)

Inductive LanguageType := CHINESE | ENGLISH | AUTO.

Inductive AgentType := CHINESE_TEACHER | ENGLISH_TEACHER.

(** The enumerations derive from [str]; these are their values. *)
Definition LanguageType_value (l : LanguageType) : string :=
  match l with
  | CHINESE => "chinese"
  | ENGLISH => "english"
  | AUTO => "auto"
  end.

Definition AgentType_value (a : AgentType) : string :=
  match a with
  | CHINESE_TEACHER => "chinese_teacher"
  | ENGLISH_TEACHER => "english_teacher"
  end.

Definition LanguageType_of_value (s : string) : option LanguageType :=
  if String.eqb s "chinese" then Some CHINESE
  else if String.eqb s "english" then Some ENGLISH
  else if String.eqb s "auto" then Some AUTO
  else None.

(** A datetime is held in its ISO format. *)
Record Message := {
  msg_message_id : string;
  msg_user_id : string;
  msg_content : string;
  msg_language : LanguageType;
  msg_timestamp : string
}.

Record CostInfo := {
  input_tokens : Z;
  output_tokens : Z;
  total_tokens : Z;
  cost_usd : Q;
  model_name : string
}.

Record Response := {
  message_id : string;
  success : bool;
  content : string;
  agent_type : AgentType;
  cost_info : CostInfo;
  response_time : Q;
  timestamp : string
}.

(** ** [src/core/config.py] *)

Definition TOPICS : list (string * string) :=
  [ ("chinese_teacher", "chinese_teacher");
    ("english_teacher", "english_teacher");
    ("cost_monitor", "cost_monitor");
    ("responses", "responses") ].

(** [Config.TOPICS[key]]: a [KeyError] for a key that is not there. *)
Fixpoint dict_getitem (d : list (string * string)) (key : string) : Exc string :=
  match d with
  | [] => Raise key
  | (k, v) :: d' => if String.eqb k key then Ok v else dict_getitem d' key
  end.

(** [REQUEST_TIMEOUT = int(os.getenv("REQUEST_TIMEOUT", "30"))]: the
    environment variable is the argument; it bounds the HTTP call of the
    Ollama engine and nothing else. *)
Definition REQUEST_TIMEOUT (env_value : option Z) : Z :=
  match env_value with
  | Some v => v
  | None => 30
  end.

(** ** [src/producer.py] *)

(** A text, by code point. *)
Definition text := list Z.

Fixpoint _contains_chinese (t : text) : bool :=
  match t with
  | [] => false
  | char :: rest =>
      if (0x4e00 <=? char) && (char <=? 0x9fff) then true
      else _contains_chinese rest
  end.

Definition zh_codes : list string := ["zh-cn"; "zh-tw"; "zh"].

(** [LANGDETECT_AVAILABLE] records whether the import of [langdetect]
    succeeded; [detect] is the library's function, which returns a language
    code or raises. *)
Definition detect_language (LANGDETECT_AVAILABLE : bool)
    (detect : text -> Exc string) (t : text) : Exc LanguageType :=
  try_except
    (do early <- (if LANGDETECT_AVAILABLE then
                    do detected <- detect t;
                    Ok (if existsb (String.eqb detected) zh_codes
                        then Some CHINESE else None)
                  else Ok None);
     match early with
     | Some language => Ok language
     | None =>
         if _contains_chinese t then Ok CHINESE else Ok ENGLISH
     end)%exc
    (fun _ =>
       if _contains_chinese t then Ok CHINESE else Ok ENGLISH).

Definition route_to_topic (language : LanguageType) : Exc string :=
  match language with
  | CHINESE => dict_getitem TOPICS "chinese_teacher"
  | _ => dict_getitem TOPICS "english_teacher"
  end.

(** ** [src/monitor.py] *)

(** The telemetry event as the monitor reads it: the JSON object that
    [_send_cost_info] publishes, each key possibly missing. *)
Record cost_info_dict := {
  ci_input_tokens : option Z;
  ci_output_tokens : option Z;
  ci_total_tokens : option Z;
  ci_cost_usd : option Q;
  ci_model_name : option string
}.

Record cost_data_dict := {
  cd_message_id : option string;
  cd_agent_type : option string;
  cd_cost_info : option cost_info_dict;
  cd_timestamp : option string
}.

(** The empty JSON object [{}]. *)
Definition empty_cost_info : cost_info_dict :=
  {| ci_input_tokens := None; ci_output_tokens := None;
     ci_total_tokens := None; ci_cost_usd := None; ci_model_name := None |}.

(** The statistics fields of a [CostMonitor]. *)
Record CostMonitor := {
  total_cost : Q;
  cost_by_agent : gmap string Q;
  cost_by_model : gmap string Q;
  message_count : Z
}.

(** [CostMonitor.__init__] *)
Definition CostMonitor_init : CostMonitor :=
  {| total_cost := 0; cost_by_agent := ∅; cost_by_model := ∅;
     message_count := 0 |}.

(** [if key not in d: d[key] = 0.0] *)
Definition dict_init_zero (key : string) (d : gmap string Q) : gmap string Q :=
  match d !! key with
  | None => <[key := 0%Q]> d
  | Some _ => d
  end.

(** [d[key] += c]; the key is there when [_process_cost_info] gets to this
    statement, so the [KeyError] branch is not taken. *)
Definition dict_iadd (key : string) (c : Q) (d : gmap string Q) : gmap string Q :=
  match d !! key with
  | Some v => <[key := (v + c)%Q]> d
  | None => d
  end.

Definition _process_cost_info (self : CostMonitor) (cost_data : cost_data_dict)
    : CostMonitor :=
  let agent_type := default "unknown" (cd_agent_type cost_data) in
  let cost_info := default empty_cost_info (cd_cost_info cost_data) in
  let cost_usd := default 0%Q (ci_cost_usd cost_info) in
  let model_name := default "unknown" (ci_model_name cost_info) in
  {| total_cost := (total_cost self + cost_usd)%Q;
     cost_by_agent :=
       dict_iadd agent_type cost_usd
         (dict_init_zero agent_type (cost_by_agent self));
     cost_by_model :=
       dict_iadd model_name cost_usd
         (dict_init_zero model_name (cost_by_model self));
     message_count := message_count self + 1 |}.

(** The messages that the monitor loop hands to [_process_cost_info], in
    the order in which they are polled. *)
Definition process_all (self : CostMonitor) (events : list cost_data_dict)
    : CostMonitor :=
  fold_left _process_cost_info events self.

Record Statistics := {
  st_total_cost : Q;
  st_total_messages : Z;
  st_average_cost_per_message : Q;
  st_cost_by_agent : gmap string Q;
  st_cost_by_model : gmap string Q;
  st_timestamp : string
}.

(** [now] is [datetime.now().isoformat()]. *)
Definition get_statistics (self : CostMonitor) (now : string) : Statistics :=
  {| st_total_cost := total_cost self;
     st_total_messages := message_count self;
     st_average_cost_per_message :=
       (total_cost self / inject_Z (Z.max (message_count self) 1))%Q;
     st_cost_by_agent := cost_by_agent self;
     st_cost_by_model := cost_by_model self;
     st_timestamp := now |}.

Definition reset_statistics (self : CostMonitor) : CostMonitor :=
  {| total_cost := 0;
     cost_by_agent := ∅;
     cost_by_model := ∅;
     message_count := 0 |}.

(** ** [src/llm/base_engine.py] *)

(** The dictionary returned by [generate_response]; [llm_error] is [None]
    when the dictionary has no ["error"] key. *)
Record LLMResult := {
  llm_content : string;
  llm_success : bool;
  llm_cost_info : CostInfo;
  llm_error : option string
}.

(** An engine: its name, the two rates of its configuration and the call
    to the model, which answers or raises. [calculate_cost] is abstract in
    the base class; [GeminiEngine] and [OllamaEngine] implement it by the
    same formula over their own rates. *)
Record BaseLLMEngine := {
  name : string;
  INPUT_COST_PER_1K_TOKENS : Q;
  OUTPUT_COST_PER_1K_TOKENS : Q;
  generate_response : string -> Exc LLMResult
}.

Definition calculate_cost (self : BaseLLMEngine) (input_tokens output_tokens : Z) : Q :=
  let input_cost := (inject_Z input_tokens / 1000 * INPUT_COST_PER_1K_TOKENS self)%Q in
  let output_cost := (inject_Z output_tokens / 1000 * OUTPUT_COST_PER_1K_TOKENS self)%Q in
  (input_cost + output_cost)%Q.

Definition create_cost_info (self : BaseLLMEngine) (input_tokens output_tokens : Z)
    : CostInfo :=
  let total_tokens := input_tokens + output_tokens in
  let cost_usd := calculate_cost self input_tokens output_tokens in
  {| input_tokens := input_tokens;
     output_tokens := output_tokens;
     total_tokens := total_tokens;
     cost_usd := cost_usd;
     model_name := name self |}.

(** ** [src/agents/base_agent.py] *)

Record BaseAgent := {
  self_agent_type : AgentType;
  llm_engine : BaseLLMEngine;
  get_system_prompt : Exc string
}.

Definition newline : string := String (ascii_of_nat 10) EmptyString.

(** [elapsed] is the difference of the two clock readings in seconds, [now]
    the time stamp of the response. *)
Definition process_message (self : BaseAgent) (message : Message)
    (elapsed : Q) (now : string) : Exc Response :=
  try_except
    (do system_prompt <- get_system_prompt self;
     let full_prompt :=
       system_prompt ++ newline ++ newline ++ "User Question: "
         ++ msg_content message in
     do llm_response <- generate_response (llm_engine self) full_prompt;
     Ok {| message_id := msg_message_id message;
           success := llm_success llm_response;
           content :=
             if llm_success llm_response then llm_content llm_response
             else "Processing failed: "
                    ++ default "Unknown error" (llm_error llm_response);
           agent_type := self_agent_type self;
           cost_info := llm_cost_info llm_response;
           response_time := elapsed;
           timestamp := now |})%exc
    (fun e =>
       Ok {| message_id := msg_message_id message;
             success := false;
             content := "System error: " ++ e;
             agent_type := self_agent_type self;
             cost_info := create_cost_info (llm_engine self) 0 0;
             response_time := elapsed;
             timestamp := now |}).

(** ** [src/core/kafka_client.py] and [src/consumer.py] *)

(** A reply as a JSON object: what [Response.dict()] serialises to, and what
    the command line reads back with [.get]. *)
Record response_dict := {
  rd_message_id : option string;
  rd_success : option bool;
  rd_content : option string;
  rd_agent_type : option string;
  rd_cost_info : option cost_info_dict;
  rd_response_time : option Q;
  rd_timestamp : option string
}.

Definition CostInfo_dict (c : CostInfo) : cost_info_dict :=
  {| ci_input_tokens := Some (input_tokens c);
     ci_output_tokens := Some (output_tokens c);
     ci_total_tokens := Some (total_tokens c);
     ci_cost_usd := Some (cost_usd c);
     ci_model_name := Some (model_name c) |}.

Definition Response_dict (r : Response) : response_dict :=
  {| rd_message_id := Some (message_id r);
     rd_success := Some (success r);
     rd_content := Some (content r);
     rd_agent_type := Some (AgentType_value (agent_type r));
     rd_cost_info := Some (CostInfo_dict (cost_info r));
     rd_response_time := Some (response_time r);
     rd_timestamp := Some (timestamp r) |}.

(** A request as a JSON object, as a worker polls it: its five entries,
    each a JSON string when it is there. The constructor of [Message]
    ignores every other entry of the object. *)
Record message_dict := {
  md_message_id : option string;
  md_user_id : option string;
  md_content : option string;
  md_language : option string;
  md_timestamp : option string
}.

(** What the validation library does for a [Message]: [parse_datetime]
    reads the text of a time stamp and gives the datetime, in ISO format,
    or nothing when the text is not a datetime; [error_text] is the text of
    the validation error that it raises for a dictionary. *)
Record validator := {
  parse_datetime : string -> option string;
  error_text : message_dict -> string
}.

(** The [Message] constructor on the unpacked dictionary: validation raises
    when a field is missing, when the language is not a value of the
    enumeration, or when the time stamp is not a datetime. The message
    holds the datetime that was read. *)
Definition Message_parse (v : validator) (message_data : message_dict)
    : Exc Message :=
  match md_message_id message_data, md_user_id message_data,
        md_content message_data, md_language message_data,
        md_timestamp message_data with
  | Some mid, Some uid, Some body, Some lang, Some stamp =>
      match LanguageType_of_value lang, parse_datetime v stamp with
      | Some language, Some datetime =>
          Ok {| msg_message_id := mid; msg_user_id := uid;
                msg_content := body; msg_language := language;
                msg_timestamp := datetime |}
      | _, _ => Raise (error_text v message_data)
      end
  | _, _, _, _, _ => Raise (error_text v message_data)
  end.

Inductive payload :=
| ResponseDict (d : response_dict)
| CostDict (d : cost_data_dict).

Record sent := {
  sent_topic : string;
  sent_value : payload;
  sent_key : string
}.

(** What a worker does to the outside: [attempts] lists every call of
    [KafkaClient.send_message], [bus] the records the broker accepted, [log]
    the lines that the consumer and the client write with [logger.error];
    each oldest first. *)
Record world := {
  bus : list sent;
  attempts : list sent;
  log : list string
}.

(** The broker: for the n-th call of [send_message], [None] when the record
    is accepted and [Some e] when producing raises [e]. *)
Definition broker := nat -> option string.

Definition M (A : Type) : Type := world -> Exc A * world.

Definition m_ret {A} (a : A) : M A := fun w => (Ok a, w).

Definition m_bind {A B} (m : M A) (k : A -> M B) : M B :=
  fun w =>
    match m w with
    | (Ok a, w1) => k a w1
    | (Raise e, w1) => (Raise e, w1)
    end.

Definition m_lift {A} (m : Exc A) : M A := fun w => (m, w).

Definition m_try {A} (body : M A) (handler : string -> M A) : M A :=
  fun w =>
    match body w with
    | (Ok a, w1) => (Ok a, w1)
    | (Raise e, w1) => handler e w1
    end.

Declare Scope m_scope.
Delimit Scope m_scope with m.
Notation "'do' x <- m ; k" := (m_bind m (fun x => k))
  (at level 10, x name, m at level 100, k at level 200) : m_scope.

Definition logger_error (line : string) : M unit :=
  fun w => (Ok tt, {| bus := bus w; attempts := attempts w; log := log w ++ [line] |}).

(** [KafkaClient.send_message]: an error is logged and raised again. *)
Definition send_message (b : broker) (topic : string) (message : payload)
    (key : string) : M unit :=
  fun w =>
    let record := {| sent_topic := topic; sent_value := message; sent_key := key |} in
    match b (length (attempts w)) with
    | None =>
        (Ok tt, {| bus := bus w ++ [record];
                   attempts := attempts w ++ [record];
                   log := log w |})
    | Some e =>
        (Raise e, {| bus := bus w;
                     attempts := attempts w ++ [record];
                     log := log w ++ ["Failed to send message to " ++ topic ++ ": " ++ e] |})
    end.

Definition _send_response (b : broker) (response : Response) : M unit :=
  m_try
    (do topic <- m_lift (dict_getitem TOPICS "responses");
     send_message b topic (ResponseDict (Response_dict response))
       (message_id response))%m
    (fun e => logger_error ("Failed to send response: " ++ e)).

Definition cost_data_of (response : Response) : cost_data_dict :=
  {| cd_message_id := Some (message_id response);
     cd_agent_type := Some (AgentType_value (agent_type response));
     cd_cost_info := Some (CostInfo_dict (cost_info response));
     cd_timestamp := Some (timestamp response) |}.

Definition _send_cost_info (b : broker) (response : Response) : M unit :=
  m_try
    (let cost_data := cost_data_of response in
     do topic <- m_lift (dict_getitem TOPICS "cost_monitor");
     send_message b topic (CostDict cost_data) (message_id response))%m
    (fun e => logger_error ("Failed to send cost info: " ++ e)).

(** The two emissions of [_process_message], in its order. *)
Definition send_both (b : broker) (response : Response) : M unit :=
  (do _ <- _send_response b response;
   _send_cost_info b response)%m.

Definition _process_message (v : validator) (agent : BaseAgent) (b : broker)
    (elapsed : Q) (now : string) (message_data : message_dict) : M unit :=
  m_try
    (do message <- m_lift (Message_parse v message_data);
     do response <- m_lift (process_message agent message elapsed now);
     send_both b response)%m
    (fun e => logger_error ("Error processing message: " ++ e)).

(** The messages of the packs that [_consume_loop] polls, each with the clock
    readings of its processing. *)
Fixpoint consume (v : validator) (agent : BaseAgent) (b : broker)
    (polled : list (message_dict * Q * string)) (w : world) : world :=
  match polled with
  | [] => w
  | (message_data, elapsed, now) :: rest =>
      consume v agent b rest
        (snd (_process_message v agent b elapsed now message_data w))
  end.

(** ** [cli.py] *)

(** The response collection of a [TeachingSystemCLI]. *)
Record TeachingSystemCLI := {
  responses : gmap string response_dict;
  response_event : bool
}.

(** Truth value of a string: [if message_id:] *)
Definition truthy (s : string) : bool := negb (String.eqb s "").

(** The body of the inner loop of [_listen_responses], for one record polled
    from the responses topic. *)
Definition on_response (self : TeachingSystemCLI) (response_data : response_dict)
    : TeachingSystemCLI :=
  match rd_message_id response_data with
  | Some message_id =>
      if truthy message_id then
        {| responses := <[message_id := response_data]> (responses self);
           response_event := true |}
      else self
  | None => self
  end.

(** The listener on the records it polls, in order. *)
Definition _listen_responses (self : TeachingSystemCLI) (polled : list response_dict)
    : TeachingSystemCLI :=
  fold_left on_response polled self.

(** The outcome of [producer.send_message]. *)
Inductive send_result :=
| SendOk (message_id : string)
| SendFailed (error : string).

Definition failure_dict (text : string) : response_dict :=
  {| rd_message_id := None;
     rd_success := Some false;
     rd_content := Some text;
     rd_agent_type := None;
     rd_cost_info := None;
     rd_response_time := None;
     rd_timestamp := None |}.

Definition timeout_response : response_dict := failure_dict "Response timeout".

(** [x > y] on clock readings. *)
Definition Qgtb (x y : Q) : bool := negb (Qle_bool x y).

(** The [while True] of [ask_question], over the variables it reads. The
    loop is a coroutine: it gives way only in [wait_for], so an element of
    [env] is what one turn meets: the clock reading of its timeout test, and
    the records that the listener handles while the turn is suspended (the
    wait ends when the event is set or after one second; either way the loop
    goes round). [None]: still waiting when the observed [env] ends. *)
Fixpoint wait_loop (message_id : string) (timeout start_time : Q)
    (env : list (Q * list response_dict)) (self : TeachingSystemCLI)
    : option (response_dict * TeachingSystemCLI) :=
  match responses self !! message_id with
  | Some response_data =>
      Some (response_data,
            {| responses := delete message_id (responses self);
               response_event := response_event self |})
  | None =>
      match env with
      | [] => None
      | (now, arrivals) :: env' =>
          if Qgtb (now - start_time) timeout then Some (timeout_response, self)
          else
            let cleared := {| responses := responses self;
                              response_event := false |} in
            wait_loop message_id timeout start_time env'
              (_listen_responses cleared arrivals)
      end
  end.

(** [send] is the outcome of the call of the producer, [start_time] the
    clock reading taken after it. Nothing in the loop raises, so the two
    outer handlers of the method are not entered. *)
Definition ask_question (send : send_result) (start_time : Q)
    (env : list (Q * list response_dict)) (self : TeachingSystemCLI)
    : option (response_dict * TeachingSystemCLI) :=
  match send with
  | SendFailed error => Some (failure_dict ("Send failed: " ++ error), self)
  | SendOk message_id =>
      let timeout := 30%Q in
      wait_loop message_id timeout start_time env self
  end.

(** ** Vocabulary of the statements *)

(** The event carries the cost [c]: its ["cost_info"] has a ["cost_usd"]. *)
Definition carries_cost (e : cost_data_dict) (c : Q) : Prop :=
  exists ci, cd_cost_info e = Some ci /\ ci_cost_usd ci = Some c.

Fixpoint sum_costs (cs : list Q) : Q :=
  match cs with
  | [] => 0
  | c :: cs' => c + sum_costs cs'
  end.

(** The cost that [_process_cost_info] reads from an event. *)
Definition event_cost (e : cost_data_dict) : Q :=
  default 0%Q (ci_cost_usd (default empty_cost_info (cd_cost_info e))).

(** The bucket keys that [_process_cost_info] reads from an event. *)
Definition agent_key (e : cost_data_dict) : string :=
  default "unknown" (cd_agent_type e).

Definition model_key (e : cost_data_dict) : string :=
  default "unknown" (ci_model_name (default empty_cost_info (cd_cost_info e))).



(** Sample events: one as [_send_cost_info] publishes it, and the empty
    JSON object. *)
Definition telemetry (id agent model : string) (c : Q) : cost_data_dict :=
  {| cd_message_id := Some id;
     cd_agent_type := Some agent;
     cd_cost_info :=
       Some {| ci_input_tokens := Some 10; ci_output_tokens := Some 20;
               ci_total_tokens := Some 30; ci_cost_usd := Some c;
               ci_model_name := Some model |};
     cd_timestamp := Some "2025-01-01T00:00:00" |}.

Definition bare_event : cost_data_dict :=
  {| cd_message_id := None; cd_agent_type := None;
     cd_cost_info := None; cd_timestamp := None |}.

(** The two records that a worker sends for a response. *)
Definition reply_record (response : Response) : sent :=
  {| sent_topic := "responses";
     sent_value := ResponseDict (Response_dict response);
     sent_key := message_id response |}.

Definition cost_record (response : Response) : sent :=
  {| sent_topic := "cost_monitor";
     sent_value := CostDict (cost_data_of response);
     sent_key := message_id response |}.

(** What the [n]-th call of [send_message] leaves on the bus and in the log
    when it sends [record] from the method with the log prefix [failed]. *)
Definition accepted (b : broker) (n : nat) (record : sent) : list sent :=
  match b n with
  | None => [record]
  | Some _ => []
  end.

Definition logged (b : broker) (n : nat) (record : sent) (failed : string)
    : list string :=
  match b n with
  | None => []
  | Some e =>
      [ "Failed to send message to " ++ sent_topic record ++ ": " ++ e;
        failed ++ e ]
  end.

(** The invocation of the responder raises [e]: the system prompt does, or
    the call to the engine on the full prompt does. *)
Definition responder_raises (agent : BaseAgent) (message : Message) (e : string)
    : Prop :=
  get_system_prompt agent = Raise e
  \/ exists system_prompt,
       get_system_prompt agent = Ok system_prompt
       /\ generate_response (llm_engine agent)
            (system_prompt ++ newline ++ newline ++ "User Question: "
               ++ msg_content message) = Raise e.

(** The invocation of the responder goes through: the engine returns the
    dictionary [result]. *)
Definition responder_returns (agent : BaseAgent) (message : Message)
    (result : LLMResult) : Prop :=
  exists system_prompt,
    get_system_prompt agent = Ok system_prompt
    /\ generate_response (llm_engine agent)
         (system_prompt ++ newline ++ newline ++ "User Question: "
            ++ msg_content message) = Ok result.

Definition parses (v : validator) (message_data : message_dict) : bool :=
  match Message_parse v message_data with
  | Ok _ => true
  | Raise _ => false
  end.

(** The calls of [send_message] on the responses topic so far. *)
Definition reply_attempts (w : world) : nat :=
  length (filter (fun s => sent_topic s = "responses") (attempts w)).

(** How many of the polled messages deserialise into a [Message]. *)
Fixpoint parsed_count (v : validator)
    (polled : list (message_dict * Q * string)) : nat :=
  match polled with
  | [] => 0
  | (message_data, _, _) :: rest =>
      ((if parses v message_data then 1 else 0) + parsed_count v rest)%nat
  end.

(** Samples: an engine with the default Gemini rates whose call to the
    model is [answer], an agent on it, a request with the given content, a
    broker that accepts every record, and a worker that has done nothing. *)
Definition sample_engine (answer : string -> Exc LLMResult) : BaseLLMEngine :=
  {| name := "gemini-1.5-flash";
     INPUT_COST_PER_1K_TOKENS := 125 # 1000000;
     OUTPUT_COST_PER_1K_TOKENS := 375 # 1000000;
     generate_response := answer |}.

Definition sample_agent (answer : string -> Exc LLMResult) : BaseAgent :=
  {| self_agent_type := ENGLISH_TEACHER;
     llm_engine := sample_engine answer;
     get_system_prompt := Ok "You are a professional English teacher assistant" |}.

Definition sample_request (body : option string) : message_dict :=
  {| md_message_id := Some "m1";
     md_user_id := Some "default_user";
     md_content := body;
     md_language := Some "english";
     md_timestamp := Some "2025-01-01T00:00:00" |}.

Definition sample_message : Message :=
  {| msg_message_id := "m1";
     msg_user_id := "default_user";
     msg_content := "Hello, how are you?";
     msg_language := ENGLISH;
     msg_timestamp := "2025-01-01T00:00:00" |}.

Definition accepting : broker := fun _ => None.

(** A validator that knows one moment, written with a "T" or with a space
    between date and time. *)
Definition sample_validator : validator :=
  {| parse_datetime := fun stamp =>
       if String.eqb stamp "2025-01-01T00:00:00"
          || String.eqb stamp "2025-01-01 00:00:00"
       then Some "2025-01-01T00:00:00" else None;
     error_text := fun _ => "1 validation error for Message" |}.

Definition empty_world : world := {| bus := []; attempts := []; log := [] |}.

(** No record that the listener handles during [env] carries [id]. *)
Definition quiet (id : string) (polled : list response_dict) : Prop :=
  Forall (fun r => rd_message_id r <> Some id) polled.

Definition silent (id : string) (env : list (Q * list response_dict)) : Prop :=
  Forall (fun turn => quiet id (snd turn)) env.

(** Every clock reading of [env] is within [timeout] of [start_time]. *)
Definition in_time (timeout start_time : Q)
    (env : list (Q * list response_dict)) : Prop :=
  Forall (fun turn => (fst turn - start_time <= timeout)%Q) env.

Definition empty_cli : TeachingSystemCLI :=
  {| responses := ∅; response_event := false |}.

(** A reply as a worker publishes it, for the request [id]. *)
Definition sample_response (id : string) : Response :=
  {| message_id := id;
     success := true;
     content := "I am fine, thank you.";
     agent_type := ENGLISH_TEACHER;
     cost_info :=
       {| input_tokens := 20; output_tokens := 6; total_tokens := 26;
          cost_usd := 475 # 100000000; model_name := "gemini-1.5-flash" |};
     response_time := 3 # 2;
     timestamp := "2025-01-01T00:00:02" |}.

Definition sample_reply (id : string) : response_dict :=
  Response_dict (sample_response id).

(** ** [src/monitor.py], statement by statement *)

(** The statements of [_process_cost_info] (after it has read the event)
    and of [reset_statistics]. The monitor takes no lock: its loop runs in
    a thread of its own, [reset_statistics] and [get_statistics] are called
    from the thread of the caller, and between two statements of one
    thread the other thread may run. The interpreter may switch threads
    inside a statement as well; the model does not follow that, so every
    run of the model is a run of the program. *)
Inductive statement :=
| AddTotal (cost : Q)
| InitAgent (key : string)
| AddAgent (key : string) (cost : Q)
| InitModel (key : string)
| AddModel (key : string) (cost : Q)
| CountOne
| ResetTotal
| ClearAgent
| ClearModel
| ResetCount.

(** One statement; [None] when it raises, which is the [KeyError] of [+=]
    on a key that is not there. *)
Definition execute (st : statement) (self : CostMonitor) : option CostMonitor :=
  match st with
  | AddTotal cost =>
      Some {| total_cost := (total_cost self + cost)%Q;
              cost_by_agent := cost_by_agent self;
              cost_by_model := cost_by_model self;
              message_count := message_count self |}
  | InitAgent key =>
      Some {| total_cost := total_cost self;
              cost_by_agent := dict_init_zero key (cost_by_agent self);
              cost_by_model := cost_by_model self;
              message_count := message_count self |}
  | AddAgent key cost =>
      match cost_by_agent self !! key with
      | Some value =>
          Some {| total_cost := total_cost self;
                  cost_by_agent := <[key := (value + cost)%Q]> (cost_by_agent self);
                  cost_by_model := cost_by_model self;
                  message_count := message_count self |}
      | None => None
      end
  | InitModel key =>
      Some {| total_cost := total_cost self;
              cost_by_agent := cost_by_agent self;
              cost_by_model := dict_init_zero key (cost_by_model self);
              message_count := message_count self |}
  | AddModel key cost =>
      match cost_by_model self !! key with
      | Some value =>
          Some {| total_cost := total_cost self;
                  cost_by_agent := cost_by_agent self;
                  cost_by_model := <[key := (value + cost)%Q]> (cost_by_model self);
                  message_count := message_count self |}
      | None => None
      end
  | CountOne =>
      Some {| total_cost := total_cost self;
              cost_by_agent := cost_by_agent self;
              cost_by_model := cost_by_model self;
              message_count := message_count self + 1 |}
  | ResetTotal =>
      Some {| total_cost := 0;
              cost_by_agent := cost_by_agent self;
              cost_by_model := cost_by_model self;
              message_count := message_count self |}
  | ClearAgent =>
      Some {| total_cost := total_cost self;
              cost_by_agent := ∅;
              cost_by_model := cost_by_model self;
              message_count := message_count self |}
  | ClearModel =>
      Some {| total_cost := total_cost self;
              cost_by_agent := cost_by_agent self;
              cost_by_model := ∅;
              message_count := message_count self |}
  | ResetCount =>
      Some {| total_cost := total_cost self;
              cost_by_agent := cost_by_agent self;
              cost_by_model := cost_by_model self;
              message_count := 0 |}
  end.

Definition process_statements (e : cost_data_dict) : list statement :=
  [ AddTotal (event_cost e);
    InitAgent (agent_key e);
    AddAgent (agent_key e) (event_cost e);
    InitModel (model_key e);
    AddModel (model_key e) (event_cost e);
    CountOne ].

Definition reset_statements : list statement :=
  [ResetTotal; ClearAgent; ClearModel; ResetCount].

Inductive thread := MonitorThread | CallerThread.

(** The two threads under a schedule that says whose statement comes next.
    [monitor] is what the monitor thread still has to do of the event it
    is processing, [caller] what the caller still has to do of its reset.
    A statement of the monitor that raises ends the processing of the
    event (the handler of [_process_cost_info] logs the error). The result
    is the monitor and what is left to do. *)
Fixpoint interleave (schedule : list thread) (monitor caller : list statement)
    (self : CostMonitor) : CostMonitor * list statement * list statement :=
  match schedule with
  | [] => (self, monitor, caller)
  | MonitorThread :: rest =>
      match monitor with
      | [] => interleave rest [] caller self
      | st :: monitor' =>
          match execute st self with
          | Some self' => interleave rest monitor' caller self'
          | None => interleave rest [] caller self
          end
      end
  | CallerThread :: rest =>
      match caller with
      | [] => interleave rest monitor [] self
      | st :: caller' =>
          match execute st self with
          | Some self' => interleave rest monitor caller' self'
          | None => interleave rest monitor [] self
          end
      end
  end.

(** ** More of [src/core/models.py], [src/core/config.py] and [src/producer.py] *)

(** [message.dict()] as it is serialised for the bus: the enumeration by its
    value, the time stamp in ISO format. *)
Definition Message_dict (m : Message) : message_dict :=
  {| md_message_id := Some (msg_message_id m);
     md_user_id := Some (msg_user_id m);
     md_content := Some (msg_content m);
     md_language := Some (LanguageType_value (msg_language m));
     md_timestamp := Some (msg_timestamp m) |}.

Record validation := {
  valid : bool;
  errors : list string;
  warnings : list string
}.

(** [Config.validate_config], on the two settings it reads. *)
Definition validate_config (GEMINI_API_KEY KAFKA_BOOTSTRAP_SERVERS : string)
    : validation :=
  let warnings :=
    if truthy GEMINI_API_KEY then []
    else ["GEMINI_API_KEY not set - Gemini engine will not work"] in
  let errors :=
    if truthy KAFKA_BOOTSTRAP_SERVERS then []
    else ["KAFKA_BOOTSTRAP_SERVERS not set"] in
  {| valid := Nat.eqb (length errors) 0;
     errors := errors;
     warnings := warnings |}.

(** A record that the producer hands to the bus. *)
Record request_record := {
  rq_topic : string;
  rq_value : message_dict;
  rq_key : string
}.

(** The dictionary that [MessageProducer.send_message] returns. *)
Record send_report := {
  sr_success : bool;
  sr_message_id : option string;
  sr_topic : option string;
  sr_language : option LanguageType;
  sr_error : option string
}.

(** [MessageProducer.send_message]. [code_points] is the content as
    [detect_language] iterates over it, [uuid4] the identifier drawn for the
    message, [now] the clock reading, [outcome] what the broker does with the
    one call of [KafkaClient.send_message]. The result is the dictionary
    returned and the records that reached the bus. *)
Definition MessageProducer_send_message
    (code_points : string -> text)
    (LANGDETECT_AVAILABLE : bool) (detect : text -> Exc string)
    (uuid4 now : string) (outcome : option string)
    (content user_id : string) : send_report * list request_record :=
  match
    (let message_id := uuid4 in
     do language <- detect_language LANGDETECT_AVAILABLE detect
                      (code_points content);
     let message := {| msg_message_id := message_id;
                       msg_user_id := user_id;
                       msg_content := content;
                       msg_language := language;
                       msg_timestamp := now |} in
     do target_topic <- route_to_topic language;
     do _ <- match outcome with
             | None => Ok tt
             | Some e => Raise e
             end;
     Ok ({| sr_success := true;
            sr_message_id := Some message_id;
            sr_topic := Some target_topic;
            sr_language := Some language;
            sr_error := None |},
         [ {| rq_topic := target_topic;
              rq_value := Message_dict message;
              rq_key := message_id |} ]))%exc
  with
  | Ok out => out
  | Raise e =>
      ({| sr_success := false;
          sr_message_id := None;
          sr_topic := None;
          sr_language := None;
          sr_error := Some e |}, [])
  end.

(** What [ask_question] makes of the dictionary. *)
Definition send_result_of (report : send_report) : send_result :=
  if sr_success report then SendOk (default "" (sr_message_id report))
  else SendFailed (default "None" (sr_error report)).

(** ** More of [src/llm]: the two engines *)

(** [len(text) // 4 + 1] *)
Definition estimate_tokens (t : string) : Z :=
  Z.of_nat (String.length t) / 4 + 1.

(** The base class on a name and two rates; its [generate_response] is
    abstract. *)
Definition engine_base (model : string) (input_rate output_rate : Q)
    : BaseLLMEngine :=
  {| name := model;
     INPUT_COST_PER_1K_TOKENS := input_rate;
     OUTPUT_COST_PER_1K_TOKENS := output_rate;
     generate_response := fun _ => Raise "abstract method" |}.

Definition failed_result (self : BaseLLMEngine) (e : string) : LLMResult :=
  {| llm_content := "";
     llm_success := false;
     llm_cost_info := create_cost_info self 0 0;
     llm_error := Some e |}.

(** The dictionary that both engines return for an answer. *)
Definition answered (self : BaseLLMEngine) (prompt answer : string) : LLMResult :=
  {| llm_content := answer;
     llm_success := true;
     llm_cost_info :=
       create_cost_info self (estimate_tokens prompt) (estimate_tokens answer);
     llm_error := None |}.

(** [GeminiEngine.generate_response]. [available] says whether an API key is
    configured; [generate_content] is the call of the API, which gives the
    text of the answer or raises. *)
Definition GeminiEngine_generate_response (self : BaseLLMEngine)
    (available : bool) (generate_content : string -> Exc string)
    (prompt : string) : Exc LLMResult :=
  if negb available then
    Ok (failed_result self "Gemini API key not configured")
  else
    try_except
      (let input_tokens := estimate_tokens prompt in
       do response_text <- generate_content prompt;
       let output_tokens := estimate_tokens response_text in
       let cost := create_cost_info self input_tokens output_tokens in
       Ok {| llm_content := response_text;
             llm_success := true;
             llm_cost_info := cost;
             llm_error := None |})%exc
      (fun e => Ok (failed_result self e)).

Definition GeminiEngine (model : string) (input_rate output_rate : Q)
    (available : bool) (generate_content : string -> Exc string)
    : BaseLLMEngine :=
  {| name := model;
     INPUT_COST_PER_1K_TOKENS := input_rate;
     OUTPUT_COST_PER_1K_TOKENS := output_rate;
     generate_response :=
       GeminiEngine_generate_response
         (engine_base model input_rate output_rate) available generate_content |}.

(** A value as [json.loads] builds it. A float is held as a rational; the
    code only asks whether the value is a dictionary and whether it has a
    length. *)
#[warnings="-register-all"]
Inductive json_value :=
| JNull
| JBool (b : bool)
| JInt (n : Z)
| JFloat (x : Q)
| JStr (s : string)
| JList (items : list json_value)
| JDict (items : gmap string json_value).

(** The texts of the two errors that the interpreter raises on a value of
    the wrong type: the [AttributeError] of [result.get] on a value that is
    no dictionary, and the [TypeError] of [len] on a value that has no
    length. *)
Record interpreter := {
  no_get : json_value -> string;
  no_len : json_value -> string
}.

(** The answer of the Ollama server to a request: its status, its body as
    text, and its body read as JSON, which may raise. *)
Record http_response := {
  status_code : Z;
  body_text : string;
  json : Exc json_value
}.

(** [OllamaEngine._check_availability], on the outcome of the request. *)
Definition _check_availability (get_tags : Exc http_response) : bool :=
  match get_tags with
  | Ok response => status_code response =? 200
  | Raise _ => false
  end.

(** [result.get("response", "")] *)
Definition get_response (py : interpreter) (result : json_value)
    : Exc json_value :=
  match result with
  | JDict items => Ok (default (JStr "") (items !! "response"))
  | _ => Raise (no_get py result)
  end.

(** [len(text)] *)
Definition py_len (py : interpreter) (text : json_value) : Exc nat :=
  match text with
  | JStr s => Ok (String.length s)
  | JList items => Ok (length items)
  | JDict items => Ok (size items)
  | _ => Raise (no_len py text)
  end.

(** [OllamaEngine.estimate_tokens], on whatever the server has sent. *)
Definition OllamaEngine_estimate_tokens (py : interpreter) (text : json_value)
    : Exc Z :=
  (do n <- py_len py text;
   Ok (Z.of_nat n / 4 + 1))%exc.

(** The dictionary that [OllamaEngine.generate_response] returns. Its
    content is the entry of the body as it came, a text or not. *)
Record OllamaResult := {
  ollama_content : json_value;
  ollama_success : bool;
  ollama_cost_info : CostInfo;
  ollama_error : option string
}.

Definition ollama_failed (self : BaseLLMEngine) (e : string) : OllamaResult :=
  {| ollama_content := JStr "";
     ollama_success := false;
     ollama_cost_info := create_cost_info self 0 0;
     ollama_error := Some e |}.

(** [OllamaEngine.generate_response]; [post] is the request to the server. *)
Definition OllamaEngine_generate_response (py : interpreter)
    (self : BaseLLMEngine) (base_url : string) (available : bool)
    (post : string -> Exc http_response) (prompt : string) : Exc OllamaResult :=
  if negb available then
    Ok (ollama_failed self ("Ollama service not available at " ++ base_url))
  else
    try_except
      (let input_tokens := estimate_tokens prompt in
       do response <- post prompt;
       do _ <- (if negb (status_code response =? 200) then
                  Raise ("Ollama API error: " ++ pretty (status_code response)
                           ++ " - " ++ body_text response)
                else Ok tt);
       do result <- json response;
       do content <- get_response py result;
       do output_tokens <- OllamaEngine_estimate_tokens py content;
       let cost := create_cost_info self input_tokens output_tokens in
       Ok {| ollama_content := content;
             ollama_success := true;
             ollama_cost_info := cost;
             ollama_error := None |})%exc
      (fun e => Ok (ollama_failed self e)).

(** The server answers the prompt with a body whose entry is [content], a
    value of length [n]. *)
Definition ollama_answers (available : bool)
    (post : string -> Exc http_response) (prompt : string)
    (content : json_value) (n : nat) : Prop :=
  available = true
  /\ exists response body,
       post prompt = Ok response
       /\ status_code response = 200
       /\ json response = Ok (JDict body)
       /\ content = default (JStr "") (body !! "response")
       /\ match content with
          | JStr s => n = String.length s
          | JList items => n = length items
          | JDict items => n = size items
          | _ => False
          end.

(** The engine is the Gemini engine of the repository. *)
Definition is_GeminiEngine (engine : BaseLLMEngine) : Prop :=
  exists model input_rate output_rate available generate_content,
    engine = GeminiEngine model input_rate output_rate available
               generate_content.

(** The prompt that [process_message] sends to the engine. *)
Definition full_prompt (system_prompt : string) (message : Message) : string :=
  system_prompt ++ newline ++ newline ++ "User Question: "
    ++ msg_content message.

(** Costs added up from zero in the order of arrival, as [+=] adds them. *)
Definition running_sum (costs : list Q) : Q := fold_left Qplus costs 0%Q.

(** The costs of the events that go to the bucket [k], in order. *)
Definition bucket_costs (key_of : cost_data_dict -> string) (k : string)
    (events : list cost_data_dict) : list Q :=
  event_cost <$> filter (fun e => key_of e = k) events.

(** What a bucket holds after these costs: nothing when there are none. *)
Definition bucket_of (costs : list Q) : option Q :=
  match costs with
  | [] => None
  | _ :: _ => Some (running_sum costs)
  end.

(** The keys of the replies that a worker has tried to send, in order. *)
Definition reply_keys (w : world) : list string :=
  sent_key <$> filter (fun s => sent_topic s = "responses") (attempts w).

(** The identifiers of the polled messages that deserialise, in order. *)
Fixpoint parsed_ids (v : validator)
    (polled : list (message_dict * Q * string)) : list string :=
  match polled with
  | [] => []
  | (message_data, _, _) :: rest =>
      match Message_parse v message_data with
      | Ok message => msg_message_id message :: parsed_ids v rest
      | Raise _ => parsed_ids v rest
      end
  end.

(** The identifiers under which the listener stores the polled replies. *)
Fixpoint stored_ids (polled : list response_dict) : list string :=
  match polled with
  | [] => []
  | r :: rest =>
      match rd_message_id r with
      | Some id => if truthy id then id :: stored_ids rest else stored_ids rest
      | None => stored_ids rest
      end
  end.

(** ** More of [src/consumer.py]: the life cycle of the workers *)

(** An [AgentConsumer]: its agent, its topics, the [running] flag and the
    thread it holds, [Some n] being the thread of its [n]-th start (counted
    from zero). The Kafka client of the consumer is not part of it. *)
Record AgentConsumer := {
  ac_agent : BaseAgent;
  ac_topics : list string;
  ac_running : bool;
  ac_thread : option nat
}.

(** [AgentConsumer.__init__] *)
Definition AgentConsumer_init (agent : BaseAgent) (topics : list string)
    : AgentConsumer :=
  {| ac_agent := agent; ac_topics := topics;
     ac_running := false; ac_thread := None |}.

(** [AgentConsumer.start]: a consumer that is running is left alone. *)
Definition AgentConsumer_start (self : AgentConsumer) : AgentConsumer :=
  if ac_running self then self
  else
    {| ac_agent := ac_agent self; ac_topics := ac_topics self;
       ac_running := true;
       ac_thread := Some match ac_thread self with
                         | None => O
                         | Some n => S n
                         end |}.

(** [AgentConsumer.stop] *)
Definition AgentConsumer_stop (self : AgentConsumer) : AgentConsumer :=
  {| ac_agent := ac_agent self; ac_topics := ac_topics self;
     ac_running := false; ac_thread := ac_thread self |}.

(** [str(agent.agent_type)] *)
Definition AgentType_str (a : AgentType) : string :=
  match a with
  | CHINESE_TEACHER => "AgentType.CHINESE_TEACHER"
  | ENGLISH_TEACHER => "AgentType.ENGLISH_TEACHER"
  end.

(** A [ConsumerManager] is its dictionary of consumers. *)
Definition add_agent_consumer (consumers : gmap string AgentConsumer)
    (agent : BaseAgent) (topics : list string) : gmap string AgentConsumer :=
  let agent_key := AgentType_str (self_agent_type agent) in
  let consumer := AgentConsumer_init agent topics in
  <[agent_key := consumer]> consumers.

Definition start_all (consumers : gmap string AgentConsumer)
    : gmap string AgentConsumer :=
  AgentConsumer_start <$> consumers.

Definition stop_all (consumers : gmap string AgentConsumer)
    : gmap string AgentConsumer :=
  AgentConsumer_stop <$> consumers.

Definition get_status (consumers : gmap string AgentConsumer)
    : gmap string bool :=
  ac_running <$> consumers.

(** The manager after the registrations of a list, from an empty one. *)
Definition registered (agents : list (BaseAgent * list string))
    : gmap string AgentConsumer :=
  fold_left (fun consumers '(agent, topics) =>
               add_agent_consumer consumers agent topics) agents ∅.

(** ** More of [src/monitor.py]: the summary *)

(** [max(x, y)] *)
Definition py_max (x y : Q) : Q := if Qgtb y x then y else x.

(** [(cost / max(stats['total_cost'], 0.000001)) * 100] *)
Definition percentage (total cost : Q) : Q :=
  (cost / py_max total (1 # 1000000) * 100)%Q.

(** What [print_summary] prints for the buckets of a mapping, before the
    numbers are formatted: key, cost and share. The lines come in the order
    of the dictionary, which the model does not keep. *)
Definition summary_lines (total : Q) (buckets : gmap string Q)
    : list (string * Q * Q) :=
  (fun '(key, cost) => (key, cost, percentage total cost))
    <$> map_to_list buckets.

(** ** More of [cli.py]: the start of the system *)

Inductive engine_choice := UseGemini | UseOllama.

(** The choice of the primary engine in [initialize]; [preferred_engine] is
    the environment variable in lower case. *)
Definition select_engine (preferred_engine : string)
    (gemini_available ollama_available : bool) : option engine_choice :=
  if String.eqb preferred_engine "gemini" then
    if gemini_available then Some UseGemini
    else if ollama_available then Some UseOllama
    else None
  else if String.eqb preferred_engine "ollama" then
    if ollama_available then Some UseOllama
    else if gemini_available then Some UseGemini
    else None
  else
    if gemini_available then Some UseGemini
    else if ollama_available then Some UseOllama
    else None.

(** [initialize], as far as it decides: [None] where the method returns
    [False], the engine of the agents where it goes on. The Gemini engine
    is available exactly when the API key is set. What follows the choice
    builds the agents, the consumers, the monitor, the producer and the
    listener, none of which connects to anything yet; an exception there
    is outside the model. *)
Definition initialize (GEMINI_API_KEY KAFKA_BOOTSTRAP_SERVERS : string)
    (health_check : bool) (preferred_engine : string)
    (ollama_available : bool) : option engine_choice :=
  if negb (valid (validate_config GEMINI_API_KEY KAFKA_BOOTSTRAP_SERVERS))
  then None
  else if negb health_check then None
  else select_engine preferred_engine (truthy GEMINI_API_KEY) ollama_available.

(** ** The router *)

Section Router.

Variable LANGDETECT_AVAILABLE : bool.
Variable detect : text -> Exc string.

Lemma _contains_chinese_In (t : text) :
  _contains_chinese t = true <-> exists c, In c t /\ 0x4e00 <= c <= 0x9fff.
Proof.
  induction t as [|c t IH]; simpl.
  - split; [discriminate | intros (c & [] & _)].
  - destruct ((0x4e00 <=? c) && (c <=? 0x9fff)) eqn:E.
    + apply andb_true_iff in E as [H1%Z.leb_le H2%Z.leb_le].
      split; [intros _ | reflexivity].
      exists c. split; [now left | lia].
    + rewrite IH. split.
      * intros (d & Hd & Hr). exists d. split; [now right | exact Hr].
      * intros (d & [Hd | Hd] & Hr); [subst d | now exists d].
        destruct Hr as [H1%Z.leb_le H2%Z.leb_le].
        rewrite H1, H2 in E. discriminate.
Qed.

Lemma detect_language_cases (t : text) :
  detect_language LANGDETECT_AVAILABLE detect t = Ok CHINESE
  \/ (_contains_chinese t = false
      /\ detect_language LANGDETECT_AVAILABLE detect t = Ok ENGLISH).
Proof.
  unfold detect_language, try_except, exc_bind.
  destruct LANGDETECT_AVAILABLE.
  - destruct (detect t) as [code|e].
    + destruct (existsb (String.eqb code) zh_codes); [left; reflexivity|].
      destruct (_contains_chinese t); [left | right; split]; reflexivity.
    + destruct (_contains_chinese t); [left | right; split]; reflexivity.
  - destruct (_contains_chinese t); [left | right; split]; reflexivity.
Qed.

End Router.

(** C2. A text with at least one character in U+4E00..U+9FFF is classified
    as Chinese, whether or not the detector is available, whatever code it
    reports, and also when it raises. *)
Theorem detect_language_chinese_range
    (available : bool) (detect : text -> Exc string) (t : text) :
  (exists c, In c t /\ 0x4e00 <= c <= 0x9fff) ->
  detect_language available detect t = Ok CHINESE.
Proof.
  intros H. apply _contains_chinese_In in H.
  destruct (detect_language_cases available detect t) as [Hzh | [Hno _]].
  - exact Hzh.
  - congruence.
Qed.

(** "Hi " followed by U+4F60 U+597D, with a detector that raises. *)
Lemma detect_language_chinese_range_witness :
  (exists c, In c [0x48; 0x69; 0x20; 0x4f60; 0x597d] /\ 0x4e00 <= c <= 0x9fff)
  /\ detect_language true (fun _ => Raise "No features in text.")
       [0x48; 0x69; 0x20; 0x4f60; 0x597d] = Ok CHINESE.
Proof.
  assert (H : exists c, In c [0x48; 0x69; 0x20; 0x4f60; 0x597d]
                        /\ 0x4e00 <= c <= 0x9fff).
  { exists 0x4f60. split; [simpl; tauto | lia]. }
  split; [exact H |].
  exact (detect_language_chinese_range true _ _ H).
Defined.

(** C10. [detect_language] returns for every text and never raises: the
    result is the Chinese or the English member, never [AUTO]; when the
    detector raises or is not available, the result is the one of the
    character-range rule, English unless a character is in the range. *)
Theorem detect_language_never_raises
    (available : bool) (detect : text -> Exc string) (t : text) :
  (exists language,
      detect_language available detect t = Ok language
      /\ (language = CHINESE \/ language = ENGLISH)
      /\ language <> AUTO)
  /\ (forall e, detect t = Raise e ->
        detect_language available detect t
        = Ok (if _contains_chinese t then CHINESE else ENGLISH))
  /\ detect_language false detect t
     = Ok (if _contains_chinese t then CHINESE else ENGLISH).
Proof.
  split; [| split].
  - destruct (detect_language_cases available detect t) as [H | [_ H]];
      rewrite H; eexists; (split; [reflexivity |]);
      (split; [auto | discriminate]).
  - intros e He. unfold detect_language, try_except, exc_bind.
    rewrite He.
    destruct available; destruct (_contains_chinese t); reflexivity.
  - unfold detect_language, try_except, exc_bind.
    destruct (_contains_chinese t); reflexivity.
Qed.

(** An empty text, on which the detector raises: English. *)
Lemma detect_language_never_raises_witness :
  detect_language true (fun _ => Raise "No features in text.") [] = Ok ENGLISH.
Proof.
  destruct (detect_language_never_raises true
              (fun _ => Raise "No features in text.") []) as (_ & H & _).
  exact (H "No features in text." eq_refl).
Defined.

(** ** The cost monitor *)

Section Monitor.

Implicit Types (self : CostMonitor) (e : cost_data_dict).

Lemma process_step_count self e :
  message_count (_process_cost_info self e) = message_count self + 1.
Proof. reflexivity. Qed.

Lemma process_step_total self e :
  total_cost (_process_cost_info self e) = (total_cost self + event_cost e)%Q.
Proof. reflexivity. Qed.

Lemma process_all_cons self e es :
  process_all self (e :: es) = process_all (_process_cost_info self e) es.
Proof. reflexivity. Qed.

Lemma process_all_count es : forall self,
  message_count (process_all self es)
  = message_count self + Z.of_nat (length es).
Proof.
  induction es as [|e es IH]; intros self.
  - simpl. lia.
  - rewrite process_all_cons, IH, process_step_count.
    simpl length. lia.
Qed.

Lemma process_all_total es : forall self,
  (total_cost (process_all self es)
   == total_cost self + sum_costs (map event_cost es))%Q.
Proof.
  induction es as [|e es IH]; intros self.
  - simpl. ring.
  - rewrite process_all_cons, IH, process_step_total.
    simpl. ring.
Qed.

Lemma carries_cost_event_cost e c : carries_cost e c -> event_cost e = c.
Proof.
  intros (ci & Hci & Hc). unfold event_cost. rewrite Hci. simpl.
  rewrite Hc. reflexivity.
Qed.

Lemma carries_costs_map es cs :
  Forall2 carries_cost es cs -> map event_cost es = cs.
Proof.
  induction 1 as [|e c es cs He _ IH]; simpl.
  - reflexivity.
  - rewrite (carries_cost_event_cost e c He), IH. reflexivity.
Qed.

End Monitor.

(** C4. From zeroed accumulators, after the events [e_1 .. e_n] with costs
    [c_1 .. c_n] have been processed the snapshot reports the sum of the
    [c_i] as total cost and [n] as message count; and one event adds one to
    the count and its own cost to the total, from any state. *)
Theorem snapshot_totals
    (events : list cost_data_dict) (costs : list Q) (now : string) :
  Forall2 carries_cost events costs ->
  let stats := get_statistics (process_all CostMonitor_init events) now in
  (st_total_cost stats == sum_costs costs)%Q
  /\ st_total_messages stats = Z.of_nat (length costs)
  /\ (forall self e,
        message_count (_process_cost_info self e) = message_count self + 1
        /\ forall c, carries_cost e c ->
             total_cost (_process_cost_info self e) = (total_cost self + c)%Q).
Proof.
  intros H stats. subst stats.
  unfold get_statistics; cbn [st_total_cost st_total_messages].
  split; [| split].
  - rewrite process_all_total, (carries_costs_map _ _ H). simpl. ring.
  - rewrite process_all_count. simpl.
    apply Forall2_length in H. lia.
  - intros self e. split; [reflexivity |]. intros c Hc.
    rewrite process_step_total, (carries_cost_event_cost e c Hc).
    reflexivity.
Qed.

Section Threads.

Implicit Types (self : CostMonitor) (schedule : list thread)
  (monitor caller : list statement).

Lemma interleave_app schedule1 : forall schedule2 monitor caller self,
  interleave (schedule1 ++ schedule2) monitor caller self
  = let '(self', monitor', caller') :=
      interleave schedule1 monitor caller self in
    interleave schedule2 monitor' caller' self'.
Proof.
  induction schedule1 as [|th rest IH]; intros schedule2 monitor caller self.
  - reflexivity.
  - destruct th; cbn [app interleave].
    + destruct monitor as [|st monitor']; [apply IH |].
      destruct (execute st self); apply IH.
    + destruct caller as [|st caller']; [apply IH |].
      destruct (execute st self); apply IH.
Qed.

Lemma interleave_caller_idle n : forall monitor self,
  interleave (repeat CallerThread n) monitor [] self = (self, monitor, []).
Proof. induction n as [|n IH]; intros monitor self; [reflexivity | apply IH]. Qed.

Lemma interleave_monitor_only n : forall monitor caller self,
  exists self' monitor',
    interleave (repeat MonitorThread n) monitor caller self
    = (self', monitor', caller).
Proof.
  induction n as [|n IH]; intros monitor caller self.
  - exists self, monitor. reflexivity.
  - cbn [repeat interleave]. destruct monitor as [|st monitor']; [apply IH |].
    destruct (execute st self); apply IH.
Qed.

(** The reset with nothing in between is [reset_statistics]. *)
Lemma interleave_reset n monitor self :
  (4 <= n)%nat ->
  interleave (repeat CallerThread n) monitor reset_statements self
  = (reset_statistics self, monitor, []).
Proof.
  intros Hn. do 4 (destruct n as [|n]; [lia |]).
  cbn [repeat interleave reset_statements execute].
  rewrite interleave_caller_idle. reflexivity.
Qed.

(** The processing of an event with nothing in between is
    [_process_cost_info]. *)
Lemma interleave_process e caller self :
  interleave (repeat MonitorThread 6) (process_statements e) caller self
  = (_process_cost_info self e, [], caller).
Proof.
  cbn [repeat interleave process_statements execute cost_by_agent cost_by_model
         total_cost message_count].
  unfold dict_init_zero at 1 3.
  destruct (cost_by_agent self !! agent_key e) as [va|] eqn:Ea;
    rewrite ?Ea, ?lookup_insert_eq;
    cbn [interleave execute cost_by_agent cost_by_model total_cost message_count];
    unfold dict_init_zero at 1 2;
    destruct (cost_by_model self !! model_key e) as [vm|] eqn:Em;
    rewrite ?Em, ?lookup_insert_eq;
    cbn [interleave execute cost_by_agent cost_by_model total_cost message_count];
    unfold _process_cost_info, dict_iadd, dict_init_zero;
    fold (agent_key e); fold (model_key e); fold (event_cost e);
    rewrite ?Ea, ?Em, ?lookup_insert_eq; reflexivity.
Qed.

End Threads.

(** C8, as the code has it. When no statement of the monitor thread comes
    between the four assignments of the reset, a snapshot taken right
    after the reset shows zero total cost, zero messages and two empty
    mappings, whatever the monitor held before and whatever the monitor
    thread did before the reset, an event processed wholly before it
    included; the four assignments together are [reset_statistics], and
    the monitor is then as it was created. *)
Theorem reset_then_snapshot
    (self : CostMonitor) (pending : list statement) (n m : nat) (now : string) :
  (4 <= m)%nat ->
  let after :=
    interleave (repeat MonitorThread n ++ repeat CallerThread m)%list
      pending reset_statements self in
  let stats := get_statistics (fst (fst after)) now in
  snd after = []
  /\ st_total_cost stats = 0%Q
  /\ st_total_messages stats = 0
  /\ st_cost_by_agent stats = ∅
  /\ st_cost_by_model stats = ∅
  /\ st_average_cost_per_message stats = 0%Q
  /\ fst (fst after) = CostMonitor_init
  /\ (forall e,
        interleave (repeat MonitorThread 6 ++ repeat CallerThread m)%list
          (process_statements e) reset_statements self
        = (reset_statistics (_process_cost_info self e), [], []))
  /\ reset_statistics self = CostMonitor_init.
Proof.
  intros Hm after stats. subst stats after.
  rewrite interleave_app.
  destruct (interleave_monitor_only n pending reset_statements self)
    as (self' & pending' & ->).
  rewrite (interleave_reset m pending' self' Hm). cbn [fst snd].
  do 7 (split; [reflexivity |]).
  split; [| reflexivity].
  intros e. rewrite interleave_app, interleave_process.
  apply interleave_reset, Hm.
Qed.

(** An event is processed, then the reset runs, then the snapshot is
    taken. *)
Lemma reset_then_snapshot_witness :
  let event := telemetry "m1" "english_teacher" "gemini-1.5-flash" (5 # 1000) in
  let after :=
    interleave (repeat MonitorThread 6 ++ repeat CallerThread 4)%list
      (process_statements event) reset_statements CostMonitor_init in
  st_total_cost (get_statistics (fst (fst after)) "now") = 0%Q
  /\ st_cost_by_agent (get_statistics (fst (fst after)) "now") = ∅.
Proof.
  intros event after. subst after.
  destruct (reset_then_snapshot CostMonitor_init (process_statements event)
              6 4 "now") as (_ & Ht & _ & Ha & _).
  - lia.
  - split; [exact Ht | exact Ha].
Defined.

(** C8 as stated fails: the reset is not atomic. The caller has assigned the
    total and cleared the mapping by agent when the monitor thread
    processes the first three statements of an event; the caller then
    clears the mapping by model and assigns the count, and takes the
    snapshot at once. The reset is complete, and the snapshot shows a
    total cost that is not zero and a bucket by agent, with no bucket by
    model and no message counted. *)
Lemma reset_is_not_atomic :
  let event := telemetry "m1" "english_teacher" "gemini-1.5-flash" (5 # 1000) in
  let schedule := [ CallerThread; CallerThread;
                    MonitorThread; MonitorThread; MonitorThread;
                    CallerThread; CallerThread ] in
  let after := interleave schedule (process_statements event) reset_statements
                 CostMonitor_init in
  let stats := get_statistics (fst (fst after)) "now" in
  snd after = []
  /\ snd (fst after) = [ InitModel "gemini-1.5-flash";
                         AddModel "gemini-1.5-flash" (5 # 1000); CountOne ]
  /\ st_total_cost stats = (5 # 1000)%Q
  /\ st_cost_by_agent stats !! "english_teacher" = Some (5 # 1000)%Q
  /\ st_cost_by_model stats = ∅
  /\ st_total_messages stats = 0.
Proof. repeat split; reflexivity. Qed.

Section Buckets.

Implicit Types (d : gmap string Q) (k : string) (c : Q).

Lemma bump_lookup k c d :
  dict_iadd k c (dict_init_zero k d) !! k
  = Some (default 0%Q (d !! k) + c)%Q.
Proof.
  unfold dict_iadd, dict_init_zero.
  destruct (d !! k) as [v|] eqn:E.
  - rewrite E. simpl. apply lookup_insert_eq.
  - rewrite lookup_insert_eq. simpl. apply lookup_insert_eq.
Qed.

Lemma bump_lookup_ne k k' c d :
  k <> k' -> dict_iadd k c (dict_init_zero k d) !! k' = d !! k'.
Proof.
  intros Hne. unfold dict_iadd, dict_init_zero.
  destruct (d !! k) as [v|] eqn:E.
  - rewrite E. now rewrite lookup_insert_ne.
  - rewrite lookup_insert_eq. now rewrite !lookup_insert_ne.
Qed.


Variable key_of : cost_data_dict -> string.




End Buckets.

Section Attribution.

Implicit Types (self : CostMonitor) (e : cost_data_dict).

Lemma process_step_by_agent self e :
  cost_by_agent (_process_cost_info self e)
  = dict_iadd (agent_key e) (event_cost e)
      (dict_init_zero (agent_key e) (cost_by_agent self)).
Proof. reflexivity. Qed.

Lemma process_step_by_model self e :
  cost_by_model (_process_cost_info self e)
  = dict_iadd (model_key e) (event_cost e)
      (dict_init_zero (model_key e) (cost_by_model self)).
Proof. reflexivity. Qed.





End Attribution.


(** Two replies of two agents, with costs 0.005 and 0.007. *)
Lemma snapshot_totals_witness :
  let events := [ telemetry "m1" "english_teacher" "gemini-1.5-flash" (5 # 1000);
                  telemetry "m2" "chinese_teacher" "ollama" (7 # 1000) ] in
  let stats := get_statistics (process_all CostMonitor_init events) "now" in
  Forall2 carries_cost events [5 # 1000; 7 # 1000]
  /\ (st_total_cost stats == 12 # 1000)%Q
  /\ st_total_messages stats = 2.
Proof.
  intros events stats.
  assert (H : Forall2 carries_cost events [5 # 1000; 7 # 1000]).
  { repeat constructor; eexists; split; reflexivity. }
  split; [exact H |].
  destruct (snapshot_totals events _ "now" H) as (Ht & Hn & _).
  split; [| exact Hn].
  apply (Qeq_trans _ _ _ Ht). reflexivity.
Defined.



(** ** The worker *)

Section Worker.

Variable b : broker.
Implicit Types (response : Response) (w : world).

Lemma _send_response_eq response w :
  _send_response b response w
  = (Ok tt,
     {| bus := bus w ++ accepted b (length (attempts w)) (reply_record response);
        attempts := attempts w ++ [reply_record response];
        log := log w ++ logged b (length (attempts w)) (reply_record response)
                          "Failed to send response: " |}).
Proof.
  unfold _send_response, m_try, m_bind, m_lift, send_message, logger_error,
    accepted, logged.
  cbn [dict_getitem TOPICS String.eqb Ascii.eqb Bool.eqb].
  fold (reply_record response).
  destruct (b (length (attempts w))) as [e|]; cbn;
    rewrite ?app_nil_r, <- ?app_assoc; reflexivity.
Qed.

Lemma _send_cost_info_eq response w :
  _send_cost_info b response w
  = (Ok tt,
     {| bus := bus w ++ accepted b (length (attempts w)) (cost_record response);
        attempts := attempts w ++ [cost_record response];
        log := log w ++ logged b (length (attempts w)) (cost_record response)
                          "Failed to send cost info: " |}).
Proof.
  unfold _send_cost_info, m_try, m_bind, m_lift, send_message, logger_error,
    accepted, logged.
  cbn [dict_getitem TOPICS String.eqb Ascii.eqb Bool.eqb].
  fold (cost_record response).
  destruct (b (length (attempts w))) as [e|]; cbn;
    rewrite ?app_nil_r, <- ?app_assoc; reflexivity.
Qed.

Lemma send_both_eq response w :
  send_both b response w
  = (Ok tt,
     {| bus := bus w
               ++ accepted b (length (attempts w)) (reply_record response)
               ++ accepted b (S (length (attempts w))) (cost_record response);
        attempts := attempts w ++ [reply_record response; cost_record response];
        log := log w
               ++ logged b (length (attempts w)) (reply_record response)
                    "Failed to send response: "
               ++ logged b (S (length (attempts w))) (cost_record response)
                    "Failed to send cost info: " |}).
Proof.
  unfold send_both, m_bind.
  rewrite _send_response_eq, _send_cost_info_eq. cbn [attempts bus log].
  rewrite length_app. cbn [length].
  replace (length (attempts w) + 1)%nat with (S (length (attempts w))) by lia.
  rewrite <- !app_assoc. reflexivity.
Qed.

End Worker.


Section Responder.

Variable agent : BaseAgent.
Variable message : Message.
Variables (elapsed : Q) (now : string).

Lemma calculate_cost_zero (engine : BaseLLMEngine) :
  (calculate_cost engine 0 0 == 0)%Q.
Proof. unfold calculate_cost. simpl inject_Z. field. Qed.

(** The response of the [except] branch of [process_message]. *)
Lemma process_message_raises e :
  responder_raises agent message e ->
  process_message agent message elapsed now
  = Ok {| message_id := msg_message_id message;
          success := false;
          content := "System error: " ++ e;
          agent_type := self_agent_type agent;
          cost_info := create_cost_info (llm_engine agent) 0 0;
          response_time := elapsed;
          timestamp := now |}.
Proof.
  unfold process_message, try_except, exc_bind.
  intros [H | (p & Hp & H)].
  - rewrite H. reflexivity.
  - rewrite Hp, H. reflexivity.
Qed.

(** The response of the [try] branch of [process_message]. *)
Lemma process_message_answers result :
  responder_returns agent message result ->
  process_message agent message elapsed now
  = Ok {| message_id := msg_message_id message;
          success := llm_success result;
          content :=
            if llm_success result then llm_content result
            else "Processing failed: "
                   ++ default "Unknown error" (llm_error result);
          agent_type := self_agent_type agent;
          cost_info := llm_cost_info result;
          response_time := elapsed;
          timestamp := now |}.
Proof.
  unfold process_message, try_except, exc_bind.
  intros (p & Hp & H). rewrite Hp, H. reflexivity.
Qed.

Lemma process_message_returns :
  exists response,
    process_message agent message elapsed now = Ok response
    /\ message_id response = msg_message_id message
    /\ agent_type response = self_agent_type agent.
Proof.
  unfold process_message, try_except, exc_bind.
  destruct (get_system_prompt agent) as [p|e].
  - destruct (generate_response _ _) as [r|e];
      eexists; repeat split; reflexivity.
  - eexists; repeat split; reflexivity.
Qed.

End Responder.

Section ProcessMessage.

Variable v : validator.
Variable agent : BaseAgent.
Variable b : broker.

Lemma _process_message_undecodable elapsed now message_data w e :
  Message_parse v message_data = Raise e ->
  _process_message v agent b elapsed now message_data w
  = (Ok tt, {| bus := bus w; attempts := attempts w;
               log := (log w ++ [("Error processing message: " ++ e)%string])%list |}).
Proof.
  intros H. unfold _process_message, m_try, m_bind, m_lift.
  rewrite H. reflexivity.
Qed.

Lemma _process_message_decoded elapsed now message_data w message response :
  Message_parse v message_data = Ok message ->
  process_message agent message elapsed now = Ok response ->
  _process_message v agent b elapsed now message_data w
  = send_both b response w.
Proof.
  intros H Hr. unfold _process_message, m_try, m_bind, m_lift.
  rewrite H, Hr, send_both_eq. reflexivity.
Qed.

Lemma reply_attempts_send_both response w :
  reply_attempts (snd (send_both b response w)) = S (reply_attempts w).
Proof.
  rewrite send_both_eq. unfold reply_attempts. cbn [snd attempts].
  rewrite filter_app, length_app. cbn.
  repeat case_decide; try discriminate; try congruence; simpl; lia.
Qed.

Lemma reply_attempts_process elapsed now message_data w :
  reply_attempts (snd (_process_message v agent b elapsed now message_data w))
  = (reply_attempts w + (if parses v message_data then 1 else 0))%nat.
Proof.
  unfold parses.
  destruct (Message_parse v message_data) as [message|e] eqn:H.
  - destruct (process_message_returns agent message elapsed now)
      as (response & Hr & _).
    rewrite (_process_message_decoded _ _ _ _ _ _ H Hr).
    rewrite reply_attempts_send_both. lia.
  - rewrite (_process_message_undecodable _ _ _ _ _ H).
    unfold reply_attempts. cbn [snd attempts]. lia.
Qed.

Lemma reply_attempts_consume polled : forall w,
  reply_attempts (consume v agent b polled w)
  = (reply_attempts w + parsed_count v polled)%nat.
Proof.
  induction polled as [|[[message_data elapsed] now] rest IH]; intros w.
  - simpl. lia.
  - cbn [consume parsed_count]. rewrite IH, reply_attempts_process. lia.
Qed.

End ProcessMessage.

(** C1, as the code has it. No exception leaves [_process_message]. A
    message that does not deserialise is logged and skipped: nothing is
    sent for it. A message that deserialises gets exactly one response,
    which carries its identifier and is sent once, followed by its cost
    event; when the invocation of the responder raises, that response has
    [success = false] and a cost record of zero tokens and zero cost. Over
    the messages a worker polls, the replies sent are as many as the
    messages that deserialise. *)
Theorem one_reply_per_decoded_request
    (v : validator) (agent : BaseAgent) (b : broker) (elapsed : Q) (now : string)
    (message_data : message_dict) (w : world)
    (polled : list (message_dict * Q * string)) :
  let out := _process_message v agent b elapsed now message_data w in
  fst out = Ok tt
  /\ (forall e, Message_parse v message_data = Raise e ->
        bus (snd out) = bus w
        /\ attempts (snd out) = attempts w
        /\ log (snd out)
           = (log w ++ [("Error processing message: " ++ e)%string])%list)
  /\ (forall message, Message_parse v message_data = Ok message ->
        exists response,
          process_message agent message elapsed now = Ok response
          /\ message_id response = msg_message_id message
          /\ out = send_both b response w
          /\ attempts (snd out)
             = (attempts w ++ [reply_record response; cost_record response])%list
          /\ (forall e, responder_raises agent message e ->
                success response = false
                /\ input_tokens (cost_info response) = 0
                /\ output_tokens (cost_info response) = 0
                /\ total_tokens (cost_info response) = 0
                /\ (cost_usd (cost_info response) == 0)%Q)
          /\ (forall result, responder_returns agent message result ->
                success response = llm_success result
                /\ cost_info response = llm_cost_info result))
  /\ reply_attempts (consume v agent b polled w)
     = (reply_attempts w + parsed_count v polled)%nat.
Proof.
  intros out. subst out.
  split; [| split; [| split]].
  - destruct (Message_parse v message_data) as [message|e] eqn:H.
    + destruct (process_message_returns agent message elapsed now)
        as (response & Hr & _).
      rewrite (_process_message_decoded _ _ _ _ _ _ _ _ _ H Hr), send_both_eq.
      reflexivity.
    + rewrite (_process_message_undecodable _ _ _ _ _ _ _ _ H). reflexivity.
  - intros e H.
    rewrite (_process_message_undecodable _ _ _ _ _ _ _ _ H).
    repeat split; reflexivity.
  - intros message H.
    destruct (process_message_returns agent message elapsed now)
      as (response & Hr & Hid & _).
    exists response.
    rewrite (_process_message_decoded _ _ _ _ _ _ _ _ _ H Hr).
    split; [exact Hr |]. split; [exact Hid |]. split; [reflexivity |].
    split; [rewrite send_both_eq; reflexivity |].
    split.
    + intros e He.
      rewrite (process_message_raises _ _ _ _ _ He) in Hr.
      injection Hr as <-. cbn [success cost_info create_cost_info input_tokens
                                 output_tokens total_tokens cost_usd].
      do 4 (split; [reflexivity |]).
      apply calculate_cost_zero.
    + intros result Hres.
      rewrite (process_message_answers _ _ _ _ _ Hres) in Hr.
      injection Hr as <-. split; reflexivity.
  - apply reply_attempts_consume.
Qed.

(** A request for an agent whose engine raises. *)
Lemma one_reply_per_decoded_request_witness :
  let agent := sample_agent (fun _ => Raise "connection refused") in
  let out := _process_message sample_validator agent accepting 0 "now"
               (sample_request (Some "Hello, how are you?")) empty_world in
  exists response,
    process_message agent sample_message 0 "now" = Ok response
    /\ attempts (snd out) = [reply_record response; cost_record response]
    /\ success response = false
    /\ total_tokens (cost_info response) = 0
    /\ (cost_usd (cost_info response) == 0)%Q.
Proof.
  intros agent out.
  destruct (one_reply_per_decoded_request sample_validator agent accepting 0
              "now" (sample_request (Some "Hello, how are you?")) empty_world [])
    as (_ & _ & H & _).
  destruct (H sample_message eq_refl) as (response & Hr & _ & _ & Ha & Hf & _).
  exists response.
  assert (Hraise : responder_raises agent sample_message "connection refused").
  { right. eexists. split; reflexivity. }
  destruct (Hf _ Hraise) as (Hs & _ & _ & Ht & Hc).
  split; [exact Hr |]. split; [exact Ha |]. split; [exact Hs |].
  split; [exact Ht | exact Hc].
Defined.

(** C1 as stated fails: a request without its ["content"] does not
    deserialise, and neither does a request whose time stamp is the text
    "now"; for both the worker writes one line to the log and sends
    nothing, neither a reply nor a cost event. *)
Lemma undecodable_message_gets_no_reply :
  let agent := sample_agent (fun _ => Raise "connection refused") in
  let no_content := sample_request None in
  let no_datetime :=
    {| md_message_id := Some "m1"; md_user_id := Some "default_user";
       md_content := Some "Hello, how are you?";
       md_language := Some "english"; md_timestamp := Some "now" |} in
  let out1 := _process_message sample_validator agent accepting 0 "now"
                no_content empty_world in
  let out2 := _process_message sample_validator agent accepting 0 "now"
                no_datetime empty_world in
  parses sample_validator no_content = false
  /\ parses sample_validator no_datetime = false
  /\ fst out1 = Ok tt /\ bus (snd out1) = [] /\ attempts (snd out1) = []
  /\ length (log (snd out1)) = 1%nat
  /\ fst out2 = Ok tt /\ bus (snd out2) = [] /\ attempts (snd out2) = []
  /\ length (log (snd out2)) = 1%nat.
Proof. repeat split; reflexivity. Qed.

(** ** The correlation of replies *)

Section Correlation.

Implicit Types (self : TeachingSystemCLI) (r : response_dict) (id : string).

Lemma truthy_nonempty id : id <> "" -> truthy id = true.
Proof.
  intros H. unfold truthy. destruct (String.eqb_spec id ""); [contradiction | reflexivity].
Qed.

Lemma Qgtb_false (x y : Q) : (x <= y)%Q -> Qgtb x y = false.
Proof.
  intros H. unfold Qgtb. apply Qle_bool_iff in H. rewrite H. reflexivity.
Qed.

Lemma Qgtb_true (x y : Q) : (y < x)%Q -> Qgtb x y = true.
Proof.
  intros H. unfold Qgtb. destruct (Qle_bool x y) eqn:E; [| reflexivity].
  apply Qle_bool_iff in E. exfalso. apply (Qlt_not_le _ _ H E).
Qed.

Lemma on_response_stores self r id :
  rd_message_id r = Some id -> id <> "" ->
  responses (on_response self r) !! id = Some r.
Proof.
  intros Hr Hid. unfold on_response. rewrite Hr, (truthy_nonempty _ Hid).
  cbn [responses]. apply lookup_insert_eq.
Qed.

Lemma on_response_other self r id :
  rd_message_id r <> Some id ->
  responses (on_response self r) !! id = responses self !! id.
Proof.
  intros Hr. unfold on_response.
  destruct (rd_message_id r) as [id'|]; [| reflexivity].
  destruct (truthy id'); [| reflexivity].
  cbn [responses]. apply lookup_insert_ne. congruence.
Qed.

Lemma on_response_drops self r :
  rd_message_id r = None \/ rd_message_id r = Some "" ->
  on_response self r = self.
Proof. intros [H | H]; unfold on_response; rewrite H; reflexivity. Qed.

Lemma _listen_responses_quiet polled : forall self id,
  quiet id polled ->
  responses (_listen_responses self polled) !! id = responses self !! id.
Proof.
  induction polled as [|r polled IH]; intros self id Hq.
  - reflexivity.
  - inversion Hq as [|? ? Hr Hq']; subst.
    cbn [_listen_responses fold_left]. fold (_listen_responses (on_response self r) polled).
    rewrite (IH _ _ Hq'). apply on_response_other, Hr.
Qed.

Lemma _listen_responses_app self (l1 l2 : list response_dict) :
  _listen_responses self (l1 ++ l2)
  = _listen_responses (_listen_responses self l1) l2.
Proof. unfold _listen_responses. apply fold_left_app. Qed.

Lemma _listen_responses_delivers self id r (earlier later : list response_dict) :
  rd_message_id r = Some id -> id <> "" -> quiet id later ->
  responses (_listen_responses self (earlier ++ r :: later)) !! id = Some r.
Proof.
  intros Hr Hid Hq. rewrite _listen_responses_app.
  change (_listen_responses ?s (r :: later))
    with (_listen_responses (on_response s r) later).
  rewrite (_listen_responses_quiet _ _ _ Hq).
  apply on_response_stores; assumption.
Qed.

Implicit Types (t : Q).

Lemma wait_loop_found id t start_time env self r :
  responses self !! id = Some r ->
  wait_loop id t start_time env self
  = Some (r, {| responses := delete id (responses self);
                response_event := response_event self |}).
Proof. intros H. destruct env; simpl; rewrite H; reflexivity. Qed.

Lemma wait_loop_turn id t start_time now arrivals env self :
  responses self !! id = None ->
  wait_loop id t start_time ((now, arrivals) :: env) self
  = if Qgtb (now - start_time) t then Some (timeout_response, self)
    else wait_loop id t start_time env
           (_listen_responses
              {| responses := responses self; response_event := false |}
              arrivals).
Proof. intros H. simpl. rewrite H. reflexivity. Qed.

(** While nothing for [id] arrives and the clock stays within the timeout,
    the loop goes on. *)
Lemma wait_loop_goes_on id t start_time before : forall self,
  responses self !! id = None ->
  silent id before -> in_time t start_time before ->
  exists self1,
    responses self1 !! id = None
    /\ forall rest,
         wait_loop id t start_time (before ++ rest) self
         = wait_loop id t start_time rest self1.
Proof.
  induction before as [|[now arrivals] before IH]; intros self Hn Hs Ht.
  - exists self. split; [exact Hn | reflexivity].
  - inversion Hs as [|? ? Hq Hs']; subst.
    inversion Ht as [|? ? Hc Ht']; subst. cbn [fst snd] in *.
    destruct (IH (_listen_responses
                    {| responses := responses self; response_event := false |}
                    arrivals)) as (self1 & Hn1 & Heq); [| assumption..|].
    { rewrite (_listen_responses_quiet _ _ _ Hq). exact Hn. }
    exists self1. split; [exact Hn1 |]. intros rest.
    rewrite <- app_comm_cons, (wait_loop_turn _ _ _ _ _ _ _ Hn).
    rewrite (Qgtb_false _ _ Hc). apply Heq.
Qed.


(** A wait for another identifier leaves the entry of [id] as it is. *)
Lemma wait_loop_preserves other id t start_time env : forall self res,
  other <> id -> silent id env ->
  wait_loop other t start_time env self = Some res ->
  responses (snd res) !! id = responses self !! id.
Proof.
  induction env as [|[now arrivals] env IH]; intros self res Hne Hs.
  - simpl. destruct (responses self !! other) as [r|]; [| discriminate].
    intros [= <-]. cbn [snd responses]. now apply lookup_delete_ne.
  - inversion Hs as [|? ? Hq Hs']; subst. cbn [snd] in Hq.
    destruct (responses self !! other) as [r|] eqn:Ho.
    + rewrite (wait_loop_found _ _ _ _ _ _ Ho).
      intros [= <-]. cbn [snd responses]. now apply lookup_delete_ne.
    + rewrite (wait_loop_turn _ _ _ _ _ _ _ Ho).
      destruct (Qgtb (now - start_time) t).
      * intros [= <-]. reflexivity.
      * intros H.
        rewrite (IH _ _ Hne Hs' H), (_listen_responses_quiet _ _ _ Hq).
        reflexivity.
Qed.

End Correlation.




(** C6, as the code has it. When no reply for the identifier arrives,
    [ask_question] returns the timeout response at the first turn whose
    clock reading is more than 30 seconds after the start, and it has not
    returned before; the 30 seconds are a constant of [ask_question], which
    has no timeout argument. *)
Theorem no_reply_times_out
    (id : string) (start_time now : Q) (self : TeachingSystemCLI)
    (before after : list (Q * list response_dict))
    (arrivals : list response_dict) :
  responses self !! id = None ->
  silent id before ->
  in_time 30 start_time before ->
  (30 < now - start_time)%Q ->
  (exists self',
      ask_question (SendOk id) start_time
        (before ++ (now, arrivals) :: after)%list self
      = Some (timeout_response, self')
      /\ responses self' !! id = None)
  /\ ask_question (SendOk id) start_time before self = None.
Proof.
  intros Hn Hs Ht Hnow. unfold ask_question.
  destruct (wait_loop_goes_on id 30 start_time before self Hn Hs Ht)
    as (self1 & Hn1 & Heq).
  split.
  - exists self1.
    rewrite Heq, (wait_loop_turn _ _ _ _ _ _ _ Hn1), (Qgtb_true _ _ Hnow).
    split; [reflexivity | exact Hn1].
  - rewrite <- (app_nil_r before), Heq. simpl. rewrite Hn1. reflexivity.
Qed.

(** Readings of 10, 20 and 30 seconds, then one of 31. *)
Lemma no_reply_times_out_witness :
  exists self',
    ask_question (SendOk "m1") 0
      ([(10%Q, []); (20%Q, [sample_reply "m0"]); (30%Q, [])]
         ++ (31%Q, []) :: [])%list
      empty_cli
    = Some (timeout_response, self').
Proof.
  destruct (no_reply_times_out "m1" 0 31 empty_cli
              [(10%Q, []); (20%Q, [sample_reply "m0"]); (30%Q, [])] [] [])
    as ((self' & H & _) & _).
  - reflexivity.
  - repeat constructor. discriminate.
  - repeat constructor; discriminate.
  - reflexivity.
  - exists self'. exact H.
Defined.

(** C6 as stated fails: the timeout is not a parameter of the call. A caller
    who wants to wait 5 seconds is still waiting at a reading of 6. *)
Lemma timeout_is_not_per_call :
  ask_question (SendOk "m1") 0 [(6%Q, [])] empty_cli = None
  /\ ~ (forall t now : Q, (t < now - 0)%Q ->
          exists self',
            ask_question (SendOk "m1") 0 [(now, [])] empty_cli
            = Some (timeout_response, self')).
Proof.
  split; [reflexivity |].
  intros H. destruct (H 5%Q 6%Q) as (self' & Hs); [reflexivity | discriminate Hs].
Qed.

(** C5, as the code has it. The listener stores every reply that has a
    non-empty identifier under that identifier, whether or not a call is
    waiting for it; replies without an identifier are the only ones
    dropped. The entry stays through later replies for other identifiers
    and through waits for other identifiers. *)
Theorem unmatched_reply_is_stored
    (self : TeachingSystemCLI) (reply : response_dict) (id : string) :
  rd_message_id reply = Some id ->
  id <> "" ->
  responses (on_response self reply) !! id = Some reply
  /\ (forall polled, quiet id polled ->
        responses (_listen_responses (on_response self reply) polled) !! id
        = Some reply)
  /\ (forall other start_time env res,
        other <> id -> silent id env ->
        ask_question (SendOk other) start_time env (on_response self reply)
        = Some res ->
        responses (snd res) !! id = Some reply)
  /\ (forall r, rd_message_id r = None \/ rd_message_id r = Some "" ->
        on_response self r = self).
Proof.
  intros Hr Hid.
  assert (Hst := on_response_stores self reply id Hr Hid).
  split; [exact Hst |]. split; [| split].
  - intros polled Hq. rewrite (_listen_responses_quiet _ _ _ Hq). exact Hst.
  - intros other start_time env res Hne Hs Hw. unfold ask_question in Hw.
    rewrite (wait_loop_preserves _ _ _ _ _ _ _ Hne Hs Hw). exact Hst.
  - apply on_response_drops.
Qed.

(** A reply for "m9" arrives while nobody waits; a call for "m1" then times
    out, and the reply for "m9" is still in the collection. *)
Lemma unmatched_reply_is_stored_witness :
  responses (on_response empty_cli (sample_reply "m9")) !! "m9"
  = Some (sample_reply "m9")
  /\ forall res,
       ask_question (SendOk "m1") 0 [(31%Q, [])]
         (on_response empty_cli (sample_reply "m9")) = Some res ->
       responses (snd res) !! "m9" = Some (sample_reply "m9").
Proof.
  destruct (unmatched_reply_is_stored empty_cli (sample_reply "m9") "m9")
    as (H1 & _ & H3 & _).
  - reflexivity.
  - discriminate.
  - split; [exact H1 |].
    intros res Hw.
    apply (H3 "m1" 0%Q [(31%Q, [])] res); [discriminate | | exact Hw].
    repeat constructor.
Defined.

(** C5 as stated fails. No call ever waited for "m9": its reply is handled
    and the collection holds it afterwards. A call for "m1" has timed out:
    its reply is handled later and the collection holds it as well. *)
Lemma unmatched_reply_is_kept :
  responses empty_cli !! "m9" = None
  /\ responses (_listen_responses empty_cli [sample_reply "m9"]) !! "m9"
     = Some (sample_reply "m9")
  /\ ask_question (SendOk "m1") 0 [(31%Q, [])] empty_cli
     = Some (timeout_response, empty_cli)
  /\ responses (_listen_responses empty_cli [sample_reply "m1"]) !! "m1"
     = Some (sample_reply "m1").
Proof. repeat split; reflexivity. Qed.

(** ** The producer and the start of the system *)

Lemma LanguageType_value_round_trip (l : LanguageType) :
  LanguageType_of_value (LanguageType_value l) = Some l.
Proof. destruct l; reflexivity. Qed.

Lemma LanguageType_of_value_inv (s : string) (l : LanguageType) :
  LanguageType_of_value s = Some l -> LanguageType_value l = s.
Proof.
  unfold LanguageType_of_value.
  destruct (String.eqb_spec s "chinese") as [-> | _]; [intros [= <-]; reflexivity |].
  destruct (String.eqb_spec s "english") as [-> | _]; [intros [= <-]; reflexivity |].
  destruct (String.eqb_spec s "auto") as [-> | _]; [intros [= <-]; reflexivity |].
  discriminate.
Qed.

Lemma Message_parse_Message_dict (v : validator) (m : Message) :
  Message_parse v (Message_dict m)
  = match parse_datetime v (msg_timestamp m) with
    | Some datetime =>
        Ok {| msg_message_id := msg_message_id m;
              msg_user_id := msg_user_id m;
              msg_content := msg_content m;
              msg_language := msg_language m;
              msg_timestamp := datetime |}
    | None => Raise (error_text v (Message_dict m))
    end.
Proof.
  unfold Message_parse. cbn [Message_dict md_message_id md_user_id md_content
                              md_language md_timestamp].
  rewrite LanguageType_value_round_trip. reflexivity.
Qed.

Lemma Message_parse_inv (v : validator) (message_data : message_dict)
    (m : Message) :
  Message_parse v message_data = Ok m ->
  md_message_id message_data = Some (msg_message_id m)
  /\ md_user_id message_data = Some (msg_user_id m)
  /\ md_content message_data = Some (msg_content m)
  /\ md_language message_data = Some (LanguageType_value (msg_language m))
  /\ exists stamp,
       md_timestamp message_data = Some stamp
       /\ parse_datetime v stamp = Some (msg_timestamp m).
Proof.
  destruct message_data as [[mid|] [uid|] [body|] [lang|] [stamp|]];
    unfold Message_parse; cbn; try discriminate.
  destruct (LanguageType_of_value lang) as [l|] eqn:E; [| discriminate].
  destruct (parse_datetime v stamp) as [datetime|] eqn:D; [| discriminate].
  intros [= <-]. cbn. rewrite (LanguageType_of_value_inv _ _ E).
  repeat split. exists stamp. split; [reflexivity | exact D].
Qed.

(** X1. What the producer serialises is what the worker reads back: the
    dictionary of a message deserialises exactly when the validation
    accepts its time stamp, to the message with the same identifier, user,
    content and language and with the datetime that was read; it is the
    same message when the time stamp is read back as it was written. A
    dictionary that deserialises has all five entries, a value of the
    enumeration as language and a time stamp that the validation
    accepts. *)
Theorem Message_dict_round_trip
    (v : validator) (m : Message) (message_data : message_dict) :
  Message_parse v (Message_dict m)
  = match parse_datetime v (msg_timestamp m) with
    | Some datetime =>
        Ok {| msg_message_id := msg_message_id m;
              msg_user_id := msg_user_id m;
              msg_content := msg_content m;
              msg_language := msg_language m;
              msg_timestamp := datetime |}
    | None => Raise (error_text v (Message_dict m))
    end
  /\ (parse_datetime v (msg_timestamp m) = Some (msg_timestamp m) ->
      Message_parse v (Message_dict m) = Ok m)
  /\ (Message_parse v message_data = Ok m ->
      md_message_id message_data = Some (msg_message_id m)
      /\ md_user_id message_data = Some (msg_user_id m)
      /\ md_content message_data = Some (msg_content m)
      /\ md_language message_data = Some (LanguageType_value (msg_language m))
      /\ exists stamp,
           md_timestamp message_data = Some stamp
           /\ parse_datetime v stamp = Some (msg_timestamp m)).
Proof.
  split; [apply Message_parse_Message_dict |].
  split; [| apply Message_parse_inv].
  intros H. rewrite Message_parse_Message_dict, H. destruct m; reflexivity.
Qed.

(** The sample request, and the same request with a space in its time
    stamp: both give the sample message. *)
Lemma Message_dict_round_trip_witness :
  Message_parse sample_validator (Message_dict sample_message) = Ok sample_message
  /\ Message_parse sample_validator
       {| md_message_id := Some "m1"; md_user_id := Some "default_user";
          md_content := Some "Hello, how are you?";
          md_language := Some "english";
          md_timestamp := Some "2025-01-01 00:00:00" |} = Ok sample_message.
Proof.
  split; [| reflexivity].
  apply (Message_dict_round_trip sample_validator sample_message
           (Message_dict sample_message)).
  reflexivity.
Defined.

(** X2. [detect_language] answers Chinese exactly when a character of the
    text is in the range, or the detector is available and reports one of
    the three Chinese codes (also for a text without such a character); in
    every other case it answers English. *)
Theorem detect_language_chinese_iff
    (available : bool) (detect : text -> Exc string) (t : text) :
  (detect_language available detect t = Ok CHINESE
   <-> (_contains_chinese t = true
        \/ (available = true
            /\ exists code, detect t = Ok code /\ In code zh_codes)))
  /\ (detect_language available detect t = Ok CHINESE
      \/ detect_language available detect t = Ok ENGLISH).
Proof.
  split.
  - unfold detect_language, try_except, exc_bind.
    destruct available.
    + destruct (detect t) as [code|e].
      * destruct (existsb (String.eqb code) zh_codes) eqn:E.
        -- split; [intros _ | reflexivity].
           right. split; [reflexivity |]. exists code. split; [reflexivity |].
           apply existsb_exists in E as (c & Hin & Hc).
           apply String.eqb_eq in Hc. subst c. exact Hin.
        -- destruct (_contains_chinese t); split; try discriminate; auto.
           intros [Hc | (_ & code' & [= <-] & Hin)]; [discriminate |].
           assert (Ht : existsb (String.eqb code) zh_codes = true).
           { apply existsb_exists. exists code. split; [exact Hin |].
             apply String.eqb_refl. }
           congruence.
      * destruct (_contains_chinese t); split; try discriminate; auto.
        intros [Hc | (_ & code' & Hd & _)]; discriminate.
    + destruct (_contains_chinese t); split; try discriminate; auto.
      intros [Hc | (Ha & _)]; discriminate.
  - destruct (detect_language_cases available detect t) as [H | [_ H]]; auto.
Qed.

(** "Hello" with a detector that reports zh-cn: Chinese, by the detector
    alone. *)
Lemma detect_language_chinese_iff_witness :
  _contains_chinese [0x48; 0x65; 0x6c; 0x6c; 0x6f] = false
  /\ detect_language true (fun _ => Ok "zh-cn") [0x48; 0x65; 0x6c; 0x6c; 0x6f]
     = Ok CHINESE.
Proof.
  split; [reflexivity |].
  apply (proj1 (detect_language_chinese_iff true (fun _ => Ok "zh-cn") _)).
  right. split; [reflexivity |]. exists "zh-cn". split; [reflexivity |].
  simpl. tauto.
Defined.

Lemma route_to_topic_cases (language : LanguageType) :
  (language = CHINESE /\ route_to_topic language = Ok "chinese_teacher")
  \/ (language <> CHINESE /\ route_to_topic language = Ok "english_teacher").
Proof.
  destruct language; [left | right | right]; split;
    try reflexivity; discriminate.
Qed.

Section Producer.

Variable code_points : string -> text.
Variable available : bool.
Variable detect : text -> Exc string.
Variables (uuid4 now content user_id : string).

Let language_of : LanguageType :=
  match detect_language available detect (code_points content) with
  | Ok l => l
  | Raise _ => ENGLISH
  end.

Lemma detect_language_language_of :
  detect_language available detect (code_points content) = Ok language_of.
Proof.
  unfold language_of.
  destruct (detect_language_cases available detect (code_points content))
    as [H | [_ H]]; rewrite H; reflexivity.
Qed.

Lemma send_message_accepted_eq :
  exists topic,
    route_to_topic language_of = Ok topic
    /\ MessageProducer_send_message code_points available detect uuid4 now None
         content user_id
       = ({| sr_success := true;
             sr_message_id := Some uuid4;
             sr_topic := Some topic;
             sr_language := Some language_of;
             sr_error := None |},
          [ {| rq_topic := topic;
               rq_value :=
                 Message_dict {| msg_message_id := uuid4;
                                 msg_user_id := user_id;
                                 msg_content := content;
                                 msg_language := language_of;
                                 msg_timestamp := now |};
               rq_key := uuid4 |} ]).
Proof.
  unfold MessageProducer_send_message.
  rewrite detect_language_language_of. cbn [exc_bind].
  destruct (route_to_topic_cases language_of) as [[_ H] | [_ H]];
    rewrite H; eexists; split; reflexivity.
Qed.

Lemma send_message_refused_eq (e : string) :
  MessageProducer_send_message code_points available detect uuid4 now (Some e)
    content user_id
  = ({| sr_success := false; sr_message_id := None; sr_topic := None;
        sr_language := None; sr_error := Some e |}, []).
Proof.
  unfold MessageProducer_send_message.
  rewrite detect_language_language_of. cbn [exc_bind].
  destruct (route_to_topic_cases language_of) as [[_ H] | [_ H]];
    rewrite H; reflexivity.
Qed.

End Producer.

(** X3. When the broker accepts the record, [send_message] of the producer
    reports success with the identifier drawn for the message, and exactly
    one record is on the bus: it is keyed by that identifier, it is on the
    topic of the Chinese teacher when the content is classified as Chinese
    and on the topic of the English teacher otherwise. A worker whose
    validation accepts the time stamp of the producer reads the record
    back as the message with this identifier, user, content and language;
    a worker whose validation does not accept it raises the validation
    error. *)
Theorem producer_send_accepted
    (code_points : string -> text) (available : bool)
    (detect : text -> Exc string) (uuid4 now content user_id : string) :
  let out := MessageProducer_send_message code_points available detect
               uuid4 now None content user_id in
  exists language topic,
    detect_language available detect (code_points content) = Ok language
    /\ (language = CHINESE /\ topic = "chinese_teacher"
        \/ language <> CHINESE /\ topic = "english_teacher")
    /\ fst out = {| sr_success := true;
                    sr_message_id := Some uuid4;
                    sr_topic := Some topic;
                    sr_language := Some language;
                    sr_error := None |}
    /\ send_result_of (fst out) = SendOk uuid4
    /\ exists record,
         snd out = [record]
         /\ rq_topic record = topic
         /\ rq_key record = uuid4
         /\ forall v : validator,
              Message_parse v (rq_value record)
              = match parse_datetime v now with
                | Some datetime =>
                    Ok {| msg_message_id := uuid4;
                          msg_user_id := user_id;
                          msg_content := content;
                          msg_language := language;
                          msg_timestamp := datetime |}
                | None => Raise (error_text v (rq_value record))
                end.
Proof.
  intros out. subst out.
  destruct (send_message_accepted_eq code_points available detect
              uuid4 now content user_id) as (topic & Hroute & ->).
  eexists _, topic.
  split; [apply detect_language_language_of |].
  split.
  { destruct (route_to_topic_cases
                match detect_language available detect (code_points content) with
                | Ok l => l
                | Raise _ => ENGLISH
                end) as [[Hl H] | [Hl H]];
      rewrite H in Hroute; injection Hroute as <-; [left | right];
      split; auto. }
  split; [reflexivity |]. split; [reflexivity |].
  eexists. split; [reflexivity |]. cbn [rq_topic rq_key rq_value].
  split; [reflexivity |]. split; [reflexivity |].
  intros v. apply Message_parse_Message_dict.
Qed.

(** X4. When the broker refuses the record with the error [e],
    [send_message] of the producer does not raise: it reports a failure
    with this error and without identifier, topic or language, nothing is
    on the bus, and [ask_question] answers with "Send failed" at once,
    whatever the listener and the clock do. *)
Theorem producer_send_refused
    (code_points : string -> text) (available : bool)
    (detect : text -> Exc string) (uuid4 now content user_id e : string)
    (start_time : Q) (env : list (Q * list response_dict))
    (self : TeachingSystemCLI) :
  let out := MessageProducer_send_message code_points available detect
               uuid4 now (Some e) content user_id in
  fst out = {| sr_success := false; sr_message_id := None; sr_topic := None;
               sr_language := None; sr_error := Some e |}
  /\ snd out = []
  /\ ask_question (send_result_of (fst out)) start_time env self
     = Some (failure_dict ("Send failed: " ++ e), self).
Proof.
  intros out. subst out. rewrite send_message_refused_eq.
  repeat split; reflexivity.
Qed.

Lemma truthy_iff (s : string) : truthy s = true <-> s <> "".
Proof.
  unfold truthy. destruct (String.eqb_spec s "") as [-> | Hne]; simpl.
  - split; [discriminate | congruence].
  - split; [intros _; exact Hne | reflexivity].
Qed.

Lemma validate_config_valid (key servers : string) :
  valid (validate_config key servers) = truthy servers.
Proof. unfold validate_config. destruct (truthy servers); reflexivity. Qed.

(** X5. The choice of the engine in [initialize] fails only when neither
    engine is available, never picks an engine that is not available,
    honours a preference for Ollama when Ollama is available, and picks
    Gemini in every other case in which Gemini is available. *)
Theorem select_engine_available
    (preferred : string) (gemini_available ollama_available : bool) :
  let choice := select_engine preferred gemini_available ollama_available in
  (choice = None <-> gemini_available = false /\ ollama_available = false)
  /\ (choice = Some UseGemini -> gemini_available = true)
  /\ (choice = Some UseOllama -> ollama_available = true)
  /\ (preferred = "ollama" -> ollama_available = true ->
        choice = Some UseOllama)
  /\ (preferred <> "ollama" -> gemini_available = true ->
        choice = Some UseGemini).
Proof.
  intros choice. subst choice. unfold select_engine.
  repeat match goal with |- _ /\ _ => split end.
  - destruct (String.eqb preferred "gemini"), (String.eqb preferred "ollama"),
      gemini_available, ollama_available; split;
      try discriminate; try (intros [? ?]; discriminate); auto.
  - destruct (String.eqb preferred "gemini"), (String.eqb preferred "ollama"),
      gemini_available, ollama_available; try discriminate; auto.
  - destruct (String.eqb preferred "gemini"), (String.eqb preferred "ollama"),
      gemini_available, ollama_available; try discriminate; auto.
  - intros -> ->. reflexivity.
  - intros Hne ->.
    destruct (String.eqb_spec preferred "ollama") as [He | _];
      [contradiction |].
    destruct (String.eqb preferred "gemini"); reflexivity.
Qed.

(** Ollama is preferred and both engines are available. *)
Lemma select_engine_available_witness :
  select_engine "ollama" true true = Some UseOllama
  /\ select_engine "" true true = Some UseGemini.
Proof.
  destruct (select_engine_available "ollama" true true) as (_ & _ & _ & H & _).
  destruct (select_engine_available "" true true) as (_ & _ & _ & _ & H').
  split; [exact (H eq_refl eq_refl) | apply H'; [discriminate | reflexivity]].
Defined.

(** X6. [initialize] goes on only when the Kafka servers are configured and
    the health check passes, and then with an engine that is available:
    Gemini only with an API key, Ollama only when its server answers. It
    gives up when the servers are not configured, when the health check
    fails, and when there is neither an API key nor an Ollama server; a
    missing API key alone is a warning and does not stop it. *)
Theorem initialize_requirements
    (GEMINI_API_KEY KAFKA_BOOTSTRAP_SERVERS preferred : string)
    (health_check ollama_available : bool) :
  let start := initialize GEMINI_API_KEY KAFKA_BOOTSTRAP_SERVERS health_check
                 preferred ollama_available in
  (forall engine, start = Some engine ->
     KAFKA_BOOTSTRAP_SERVERS <> ""
     /\ health_check = true
     /\ (engine = UseGemini -> GEMINI_API_KEY <> "")
     /\ (engine = UseOllama -> ollama_available = true))
  /\ (KAFKA_BOOTSTRAP_SERVERS = "" \/ health_check = false
      \/ (GEMINI_API_KEY = "" /\ ollama_available = false) ->
      start = None)
  /\ (GEMINI_API_KEY = "" -> KAFKA_BOOTSTRAP_SERVERS <> "" ->
      health_check = true -> ollama_available = true ->
      valid (validate_config GEMINI_API_KEY KAFKA_BOOTSTRAP_SERVERS) = true
      /\ warnings (validate_config GEMINI_API_KEY KAFKA_BOOTSTRAP_SERVERS) <> []
      /\ start = Some UseOllama).
Proof.
  intros start. subst start. unfold initialize.
  rewrite validate_config_valid.
  split; [| split].
  - intros engine.
    destruct (truthy KAFKA_BOOTSTRAP_SERVERS) eqn:Hk; [| discriminate].
    destruct health_check; [| discriminate]. cbn [negb].
    intros H. apply truthy_iff in Hk.
    split; [exact Hk |]. split; [reflexivity |].
    unfold select_engine in H.
    destruct (truthy GEMINI_API_KEY) eqn:Hg.
    + apply truthy_iff in Hg.
      split; [intros _; exact Hg |]. intros ->.
      destruct (String.eqb preferred "gemini"), (String.eqb preferred "ollama"),
        ollama_available; try discriminate; reflexivity.
    + split.
      * intros ->.
        destruct (String.eqb preferred "gemini"),
          (String.eqb preferred "ollama"), ollama_available; discriminate.
      * intros ->.
        destruct (String.eqb preferred "gemini"),
          (String.eqb preferred "ollama"), ollama_available;
          try discriminate; reflexivity.
  - intros [-> | [-> | [-> ->]]].
    + reflexivity.
    + destruct (truthy KAFKA_BOOTSTRAP_SERVERS); reflexivity.
    + destruct (truthy KAFKA_BOOTSTRAP_SERVERS), health_check; cbn [negb];
        try reflexivity.
      unfold select_engine.
      destruct (String.eqb preferred "gemini"), (String.eqb preferred "ollama");
        reflexivity.
  - intros -> Hk -> ->. apply truthy_iff in Hk. rewrite Hk.
    split; [reflexivity |]. split; [discriminate |]. cbn [negb].
    unfold select_engine.
    destruct (String.eqb preferred "gemini"), (String.eqb preferred "ollama");
      reflexivity.
Qed.

(** No API key, a reachable broker and a reachable Ollama server. *)
Lemma initialize_requirements_witness :
  initialize "" "localhost:9092" true "gemini" true = Some UseOllama.
Proof.
  destruct (initialize_requirements "" "localhost:9092" "gemini" true true)
    as (_ & _ & H).
  destruct H as (_ & _ & H); try reflexivity. discriminate.
Defined.

(** ** The engines *)

Lemma string_length_app (s1 s2 : string) :
  String.length (s1 ++ s2) = (String.length s1 + String.length s2)%nat.
Proof. induction s1 as [|c s1 IH]; simpl; [reflexivity | now rewrite IH]. Qed.

(** X7. The token estimate is at least one, also for the empty text; it is
    the length divided by four, rounded down, plus one, so four characters
    more give one token more and a longer text never gets a smaller
    estimate. *)
Theorem estimate_tokens_bounds (t t' : string) :
  1 <= estimate_tokens t
  /\ 4 * (estimate_tokens t - 1) <= Z.of_nat (String.length t)
     < 4 * estimate_tokens t
  /\ (String.length t' = 4%nat ->
      estimate_tokens (t ++ t') = estimate_tokens t + 1)
  /\ ((String.length t <= String.length t')%nat ->
      estimate_tokens t <= estimate_tokens t').
Proof.
  unfold estimate_tokens.
  assert (Happ : String.length t' = 4%nat ->
                 Z.of_nat (String.length (t ++ t'))
                 = Z.of_nat (String.length t) + 1 * 4).
  { intros H4. rewrite string_length_app, H4. lia. }
  split; [| split; [| split]].
  - pose proof (Z.div_pos (Z.of_nat (String.length t)) 4). lia.
  - pose proof (Z.mul_div_le (Z.of_nat (String.length t)) 4).
    pose proof (Z.mul_succ_div_gt (Z.of_nat (String.length t)) 4).
    lia.
  - intros H4. rewrite (Happ H4), Z.div_add by lia. lia.
  - intros Hle.
    pose proof (Z.div_le_mono (Z.of_nat (String.length t))
                  (Z.of_nat (String.length t')) 4).
    lia.
Qed.

Lemma estimate_tokens_bounds_witness :
  estimate_tokens "" <= estimate_tokens "Hello".
Proof.
  apply (estimate_tokens_bounds "" "Hello"). simpl. lia.
Defined.

(** X8. The cost of a call follows the two rates: a thousand input tokens
    cost the input rate and a thousand output tokens the output rate. With
    rates that are not negative, the cost is not negative for counts that
    are not negative, and more tokens never cost less. The cost is zero
    when both rates are zero, which are the defaults of Ollama. The cost
    record built from the counts has their sum as total and the name of
    the engine as model. *)
Theorem calculate_cost_rates
    (engine : BaseLLMEngine) (i1 o1 i2 o2 : Z) :
  (calculate_cost engine 1000 0 == INPUT_COST_PER_1K_TOKENS engine)%Q
  /\ (calculate_cost engine 0 1000 == OUTPUT_COST_PER_1K_TOKENS engine)%Q
  /\ ((0 <= INPUT_COST_PER_1K_TOKENS engine)%Q ->
      (0 <= OUTPUT_COST_PER_1K_TOKENS engine)%Q ->
      (0 <= i1 -> 0 <= o1 -> (0 <= calculate_cost engine i1 o1)%Q)
      /\ (i1 <= i2 -> o1 <= o2 ->
          (calculate_cost engine i1 o1 <= calculate_cost engine i2 o2)%Q))
  /\ ((INPUT_COST_PER_1K_TOKENS engine == 0)%Q ->
      (OUTPUT_COST_PER_1K_TOKENS engine == 0)%Q ->
      (calculate_cost engine i1 o1 == 0)%Q)
  /\ total_tokens (create_cost_info engine i1 o1) = i1 + o1
  /\ cost_usd (create_cost_info engine i1 o1) = calculate_cost engine i1 o1
  /\ model_name (create_cost_info engine i1 o1) = name engine.
Proof.
  unfold calculate_cost.
  assert (Hmono : forall x y,
             x <= y -> (inject_Z x / 1000 <= inject_Z y / 1000)%Q).
  { intros x y Hxy. apply Qmult_le_compat_r; [| discriminate].
    rewrite <- Zle_Qle. exact Hxy. }
  split; [| split; [| split; [| split; [| repeat split]]]].
  - change (inject_Z 1000) with 1000%Q. change (inject_Z 0) with 0%Q. field.
  - change (inject_Z 1000) with 1000%Q. change (inject_Z 0) with 0%Q. field.
  - intros Hi Ho. split.
    + intros Hi1 Ho1.
      assert (Hq : forall z, 0 <= z -> (0 <= inject_Z z / 1000)%Q).
      { intros z Hz. apply (Qle_trans _ (inject_Z 0 / 1000));
          [discriminate | apply Hmono, Hz]. }
      apply (Qplus_le_compat 0 _ 0); apply Qmult_le_0_compat; auto.
    + intros Hi12 Ho12.
      apply Qplus_le_compat; apply Qmult_le_compat_r; auto.
  - intros Hi Ho. rewrite Hi, Ho. ring.
Qed.

(** The default Gemini rates: 800 input and 200 output tokens, and a
    hundred input tokens more. *)
Lemma calculate_cost_rates_witness :
  (0 <= calculate_cost (sample_engine (fun _ => Raise "unused")) 800 200)%Q
  /\ (calculate_cost (sample_engine (fun _ => Raise "unused")) 800 200
      <= calculate_cost (sample_engine (fun _ => Raise "unused")) 900 200)%Q.
Proof.
  destruct (calculate_cost_rates (sample_engine (fun _ => Raise "unused"))
              800 200 900 200) as (_ & _ & H & _).
  destruct H as [H0 Hm]; [discriminate | discriminate |].
  split; [apply H0; lia | apply Hm; lia].
Defined.

Section Engines.

Variable self : BaseLLMEngine.

Lemma failed_result_zero (e : string) :
  let result := failed_result self e in
  llm_success result = false
  /\ llm_content result = ""
  /\ llm_error result = Some e
  /\ input_tokens (llm_cost_info result) = 0
  /\ output_tokens (llm_cost_info result) = 0
  /\ total_tokens (llm_cost_info result) = 0
  /\ (cost_usd (llm_cost_info result) == 0)%Q.
Proof.
  cbn. do 6 (split; [reflexivity |]). unfold calculate_cost. cbn. field.
Qed.

Lemma GeminiEngine_generate_response_cases
    (available : bool) (generate_content : string -> Exc string)
    (prompt : string) :
  (exists answer,
      available = true /\ generate_content prompt = Ok answer
      /\ GeminiEngine_generate_response self available generate_content prompt
         = Ok (answered self prompt answer))
  \/ (exists e,
        (available = false /\ e = "Gemini API key not configured"
         \/ available = true /\ generate_content prompt = Raise e)
        /\ GeminiEngine_generate_response self available generate_content prompt
           = Ok (failed_result self e)).
Proof.
  unfold GeminiEngine_generate_response, try_except, exc_bind.
  destruct available; cbn [negb].
  - destruct (generate_content prompt) as [answer|e] eqn:E.
    + left. exists answer. repeat split; reflexivity.
    + right. exists e. split; [right; split; reflexivity | reflexivity].
  - right. eexists. split; [left; split; reflexivity | reflexivity].
Qed.

Lemma ollama_failed_zero (e : string) :
  let result := ollama_failed self e in
  ollama_success result = false
  /\ ollama_content result = JStr ""
  /\ ollama_error result = Some e
  /\ input_tokens (ollama_cost_info result) = 0
  /\ output_tokens (ollama_cost_info result) = 0
  /\ total_tokens (ollama_cost_info result) = 0
  /\ (cost_usd (ollama_cost_info result) == 0)%Q.
Proof.
  cbn. do 6 (split; [reflexivity |]). unfold calculate_cost. cbn. field.
Qed.

Lemma py_len_Ok (py : interpreter) (content : json_value) (n : nat) :
  py_len py content = Ok n
  <-> match content with
      | JStr s => n = String.length s
      | JList items => n = length items
      | JDict items => n = size items
      | _ => False
      end.
Proof.
  destruct content; cbn [py_len]; split; intros H;
    try discriminate; try contradiction; congruence.
Qed.

Lemma OllamaEngine_generate_response_cases (py : interpreter)
    (base_url : string) (available : bool)
    (post : string -> Exc http_response) (prompt : string) :
  (exists content n,
      ollama_answers available post prompt content n
      /\ OllamaEngine_generate_response py self base_url available post prompt
         = Ok {| ollama_content := content;
                 ollama_success := true;
                 ollama_cost_info :=
                   create_cost_info self (estimate_tokens prompt)
                     (Z.of_nat n / 4 + 1);
                 ollama_error := None |})
  \/ (exists e,
        (forall content n, ~ ollama_answers available post prompt content n)
        /\ (available = false ->
            e = "Ollama service not available at " ++ base_url)
        /\ (forall response,
              available = true -> post prompt = Ok response ->
              status_code response <> 200 ->
              e = "Ollama API error: " ++ pretty (status_code response)
                    ++ " - " ++ body_text response)
        /\ OllamaEngine_generate_response py self base_url available post prompt
           = Ok (ollama_failed self e)).
Proof.
  unfold OllamaEngine_generate_response, OllamaEngine_estimate_tokens,
    try_except, exc_bind, ollama_answers.
  destruct available; cbn [negb].
  2:{ right. eexists. split; [intros c n [Hf _]; discriminate |].
      split; [reflexivity |]. split; [discriminate | reflexivity]. }
  destruct (post prompt) as [response|e] eqn:E.
  2:{ right. exists e.
      split; [intros c n (_ & r & b & Hr & _); discriminate |].
      split; [discriminate |]. split; [discriminate | reflexivity]. }
  destruct (Z.eqb_spec (status_code response) 200) as [Hs | Hs]; cbn [negb].
  2:{ right. eexists. split; [| split; [| split; [| reflexivity]]].
      - intros c n (_ & r & b & Hr & Hst & _). congruence.
      - discriminate.
      - intros r _ Hr _. congruence. }
  destruct (json response) as [result|e] eqn:J.
  2:{ right. exists e.
      split; [intros c n (_ & r & b & Hr & _ & Hj & _); congruence |].
      split; [discriminate |].
      split; [intros r _ Hr Hn; congruence | reflexivity]. }
  unfold get_response.
  destruct result as [| flag | number | number | s | items | body];
    try (right; eexists;
         split; [intros c n (_ & r & b & Hr & _ & Hj & _); congruence |];
         split; [discriminate |];
         split; [intros r _ Hr Hn; congruence | reflexivity]).
  destruct (py_len py (default (JStr "") (body !! "response")))
    as [n|e] eqn:L.
  - left. exists (default (JStr "") (body !! "response")), n.
    split; [| reflexivity].
    split; [reflexivity |]. exists response, body.
    do 4 (split; [auto |]). apply (py_len_Ok py), L.
  - right. exists e.
    split.
    { intros c n (_ & r & b & Hr & _ & Hj & Hc & Hn).
      assert (b = body) by congruence. subst b c.
      apply (py_len_Ok py) in Hn. congruence. }
    split; [discriminate |].
    split; [intros r _ Hr Hn; congruence | reflexivity].
Qed.

End Engines.

(** X9. [generate_response] of the Gemini engine never raises. It succeeds
    exactly when an API key is configured and the call of the API returns
    a text; the result then carries this text and the token estimates of
    prompt and text, with their sum as total. In every other case the
    result is a failure with an error text, empty content and a cost
    record of zero tokens and zero cost; without an API key the error says
    so, whatever the API would do. *)
Theorem GeminiEngine_generate_response_total
    (self : BaseLLMEngine) (available : bool)
    (generate_content : string -> Exc string) (prompt : string) :
  exists result,
    GeminiEngine_generate_response self available generate_content prompt
    = Ok result
    /\ (llm_success result = true
        <-> available = true /\ exists answer, generate_content prompt = Ok answer)
    /\ (llm_success result = true ->
          generate_content prompt = Ok (llm_content result)
          /\ llm_error result = None
          /\ input_tokens (llm_cost_info result) = estimate_tokens prompt
          /\ output_tokens (llm_cost_info result)
             = estimate_tokens (llm_content result)
          /\ total_tokens (llm_cost_info result)
             = estimate_tokens prompt + estimate_tokens (llm_content result))
    /\ (llm_success result = false ->
          llm_content result = ""
          /\ llm_error result <> None
          /\ total_tokens (llm_cost_info result) = 0
          /\ (cost_usd (llm_cost_info result) == 0)%Q)
    /\ (available = false ->
          llm_error result = Some "Gemini API key not configured").
Proof.
  destruct (GeminiEngine_generate_response_cases self available
              generate_content prompt)
    as [(answer & Ha & Hg & ->) | (e & Hcase & ->)]; eexists;
    (split; [reflexivity |]).
  - split; [split; [intros _ | reflexivity]; split; eauto |].
    split; [intros _; repeat split; auto |].
    split; [discriminate | congruence].
  - destruct (failed_result_zero self e) as (Hs & Hc & He & _ & _ & Ht & Hz).
    split.
    { split; [rewrite Hs; discriminate |].
      intros (Hav & answer & Hg).
      destruct Hcase as [[Hf _] | [_ Hr]]; congruence. }
    split; [rewrite Hs; discriminate |].
    split; [intros _; repeat split; auto; rewrite He; discriminate |].
    intros Hav. rewrite He.
    destruct Hcase as [[_ ->] | [Ht' _]]; [reflexivity | congruence].
Qed.

(** An engine with a key whose API call fails. *)
Lemma GeminiEngine_generate_response_total_witness :
  exists result,
    GeminiEngine_generate_response (engine_base "gemini-1.5-flash" 0 0) true
      (fun _ => Raise "quota exceeded") "Hello" = Ok result
    /\ llm_content result = ""
    /\ total_tokens (llm_cost_info result) = 0.
Proof.
  destruct (GeminiEngine_generate_response_total
              (engine_base "gemini-1.5-flash" 0 0) true
              (fun _ => Raise "quota exceeded") "Hello")
    as (result & Hr & _ & _ & Hf & _).
  exists result. split; [exact Hr |].
  assert (Hs : llm_success result = false).
  { cbv in Hr. injection Hr as <-. reflexivity. }
  destruct (Hf Hs) as (Hc & _ & Ht & _).
  split; [exact Hc | exact Ht].
Defined.

(** X10. [generate_response] of the Ollama engine never raises. It succeeds
    exactly when the service was found available, the request returns with
    status 200, its body reads as a JSON object, and the ["response"]
    entry of the object, or the empty text when it has none, is a text, a
    list or an object. The content is then that entry as it came, and the
    output tokens are estimated from its length. In every other case,
    also when the entry is null, a number or a boolean, the result is a
    failure with the empty text as content and a cost record of zero
    tokens and zero cost; for another status the error text names it, and
    for a service that was not available the error says so. *)
Theorem OllamaEngine_generate_response_total
    (py : interpreter) (self : BaseLLMEngine) (base_url : string)
    (available : bool) (post : string -> Exc http_response) (prompt : string) :
  exists result,
    OllamaEngine_generate_response py self base_url available post prompt
    = Ok result
    /\ (ollama_success result = true
        <-> exists content n, ollama_answers available post prompt content n)
    /\ (forall content n,
          ollama_answers available post prompt content n ->
          ollama_content result = content
          /\ ollama_error result = None
          /\ input_tokens (ollama_cost_info result) = estimate_tokens prompt
          /\ output_tokens (ollama_cost_info result) = Z.of_nat n / 4 + 1
          /\ (forall s, content = JStr s ->
                output_tokens (ollama_cost_info result) = estimate_tokens s))
    /\ (ollama_success result = false ->
          ollama_content result = JStr ""
          /\ ollama_error result <> None
          /\ total_tokens (ollama_cost_info result) = 0
          /\ (cost_usd (ollama_cost_info result) == 0)%Q)
    /\ (forall response body entry,
          post prompt = Ok response -> json response = Ok (JDict body) ->
          body !! "response" = Some entry ->
          entry = JNull \/ (exists b, entry = JBool b)
          \/ (exists n, entry = JInt n) \/ (exists x, entry = JFloat x) ->
          ollama_success result = false)
    /\ (forall response,
          available = true -> post prompt = Ok response ->
          status_code response <> 200 ->
          ollama_error result
          = Some ("Ollama API error: " ++ pretty (status_code response)
                    ++ " - " ++ body_text response))
    /\ (available = false ->
          ollama_error result
          = Some ("Ollama service not available at " ++ base_url)).
Proof.
  destruct (OllamaEngine_generate_response_cases self py base_url available
              post prompt)
    as [(content & n & Hans & ->) | (e & Hnone & Hav & Hst & ->)];
    eexists; (split; [reflexivity |]).
  - cbn [ollama_success ollama_content ollama_error ollama_cost_info
           create_cost_info input_tokens output_tokens].
    pose proof Hans as (Ha & response & body & Hp & Hs & Hj & Hc & Hn).
    split; [split; [intros _; eauto | reflexivity] |].
    split.
    { intros content' n' (_ & r' & b' & Hp' & _ & Hj' & Hc' & Hn').
      assert (b' = body) by congruence. subst b'.
      rewrite <- Hc in Hc'. subst content'.
      assert (n' = n)
        by (destruct content; cbn in Hn, Hn'; try contradiction; congruence).
      subst n'.
      do 4 (split; [reflexivity |]).
      intros s ->. subst n. reflexivity. }
    split; [discriminate |].
    split.
    { intros r b entry Hp' Hj' He Hkind.
      assert (b = body) by congruence. subst b.
      rewrite He in Hc. cbn in Hc. subst content.
      destruct Hkind as [-> | [[? ->] | [[? ->] | [? ->]]]]; cbn in Hn;
        contradiction. }
    split; [intros r _ Hp' Hs'; congruence |].
    intros Hf. congruence.
  - destruct (ollama_failed_zero self e) as (Hs & Hc & He & _ & _ & Ht & Hz).
    split.
    { split; [rewrite Hs; discriminate |].
      intros (content & n & Hans). destruct (Hnone _ _ Hans). }
    split; [intros content n Hans; destruct (Hnone _ _ Hans) |].
    split; [intros _; repeat split; auto; rewrite He; discriminate |].
    split; [intros; exact Hs |].
    split.
    + intros response Ha Hp Hn. rewrite He. f_equal. apply (Hst response); auto.
    + intros Ha. rewrite He. f_equal. apply Hav, Ha.
Qed.

(** The server answers with status 500; and with status 200 and a body
    whose entry is null. *)
Lemma OllamaEngine_generate_response_total_witness :
  let py := {| no_get := fun _ => "no attribute"; no_len := fun _ => "no len" |} in
  (exists result,
     OllamaEngine_generate_response py (engine_base "ollama" 0 0)
       "http://ollama:11434" true
       (fun _ => Ok {| status_code := 500; body_text := "model not found";
                       json := Raise "no JSON" |}) "Hello" = Ok result
     /\ ollama_error result = Some "Ollama API error: 500 - model not found")
  /\ (exists result,
        OllamaEngine_generate_response py (engine_base "ollama" 0 0)
          "http://ollama:11434" true
          (fun _ => Ok {| status_code := 200; body_text := "{...}";
                          json := Ok (JDict {[ "response" := JNull ]}) |})
          "Hello" = Ok result
        /\ ollama_success result = false).
Proof.
  intros py. split.
  - destruct (OllamaEngine_generate_response_total py (engine_base "ollama" 0 0)
                "http://ollama:11434" true
                (fun _ => Ok {| status_code := 500; body_text := "model not found";
                                json := Raise "no JSON" |}) "Hello")
      as (result & Hr & _ & _ & _ & _ & He & _).
    exists result. split; [exact Hr |].
    apply (He _ eq_refl eq_refl). discriminate.
  - destruct (OllamaEngine_generate_response_total py (engine_base "ollama" 0 0)
                "http://ollama:11434" true
                (fun _ => Ok {| status_code := 200; body_text := "{...}";
                                json := Ok (JDict {[ "response" := JNull ]}) |})
                "Hello")
      as (result & Hr & _ & _ & _ & Hnull & _).
    exists result. split; [exact Hr |].
    apply (Hnull _ {[ "response" := JNull ]} JNull eq_refl eq_refl);
      [apply lookup_singleton_eq | left; reflexivity].
Defined.

Lemma GeminiEngine_result (engine : BaseLLMEngine) (prompt : string) :
  is_GeminiEngine engine ->
  exists result,
    generate_response engine prompt = Ok result
    /\ (llm_success result = false ->
          exists e,
            llm_error result = Some e
            /\ total_tokens (llm_cost_info result) = 0
            /\ (cost_usd (llm_cost_info result) == 0)%Q
            /\ model_name (llm_cost_info result) = name engine).
Proof.
  intros (model & ri & ro & av & api & ->).
  cbn [generate_response GeminiEngine name].
  destruct (GeminiEngine_generate_response_cases (engine_base model ri ro)
              av api prompt)
    as [(answer & _ & _ & ->) | (e & _ & ->)]; eexists;
    (split; [reflexivity |]); [discriminate |].
  intros _. exists e.
  destruct (failed_result_zero (engine_base model ri ro) e)
    as (_ & _ & He & _ & _ & Ht & Hz).
  repeat split; auto.
Qed.

(** X11. An agent on the Gemini engine, whose system prompt is a text,
    never gets to the "System error" branch of [process_message]: the
    engine returns a dictionary whose content is a text, and the response
    takes success flag and cost record from it. When the engine reports a
    failure, the response says "Processing failed: " followed by the error
    of the engine, and its cost record has zero tokens, zero cost and the
    name of the engine. *)
Theorem process_message_on_GeminiEngine
    (agent : BaseAgent) (message : Message) (elapsed : Q) (now : string)
    (system_prompt : string) :
  is_GeminiEngine (llm_engine agent) ->
  get_system_prompt agent = Ok system_prompt ->
  exists result response,
    generate_response (llm_engine agent) (full_prompt system_prompt message)
    = Ok result
    /\ process_message agent message elapsed now = Ok response
    /\ message_id response = msg_message_id message
    /\ agent_type response = self_agent_type agent
    /\ success response = llm_success result
    /\ cost_info response = llm_cost_info result
    /\ (llm_success result = true -> content response = llm_content result)
    /\ (llm_success result = false ->
          exists e,
            llm_error result = Some e
            /\ content response = "Processing failed: " ++ e
            /\ total_tokens (cost_info response) = 0
            /\ (cost_usd (cost_info response) == 0)%Q
            /\ model_name (cost_info response) = name (llm_engine agent)).
Proof.
  intros Hgemini Hprompt.
  destruct (GeminiEngine_result _ (full_prompt system_prompt message) Hgemini)
    as (result & Hgen & Hfail).
  exists result. eexists.
  split; [exact Hgen |].
  split.
  { apply process_message_answers. exists system_prompt.
    split; [exact Hprompt | exact Hgen]. }
  cbn [message_id agent_type success cost_info content].
  do 4 (split; [reflexivity |]).
  split.
  - intros ->. reflexivity.
  - intros Hs. destruct (Hfail Hs) as (e & He & Ht & Hz & Hn).
    exists e. rewrite Hs, He. repeat split; auto.
Qed.

(** The English teacher on a Gemini engine without API key. *)
Lemma process_message_on_GeminiEngine_witness :
  let engine := GeminiEngine "gemini-1.5-flash" (125 # 1000000) (375 # 1000000)
                  false (fun _ => Raise "not called") in
  let agent := {| self_agent_type := ENGLISH_TEACHER;
                  llm_engine := engine;
                  get_system_prompt := Ok "You are a teacher." |} in
  exists response,
    process_message agent sample_message 0 "now" = Ok response
    /\ success response = false
    /\ content response = "Processing failed: Gemini API key not configured".
Proof.
  intros engine agent.
  destruct (process_message_on_GeminiEngine agent sample_message 0 "now"
              "You are a teacher.")
    as (result & response & Hg & Hp & _ & _ & Hs & _ & _ & Hf).
  - repeat eexists.
  - reflexivity.
  - exists response. split; [exact Hp |].
    cbv in Hg. injection Hg as <-.
    destruct (Hf eq_refl) as (e & He & Hc & _).
    cbv in He. injection He as <-.
    split; [rewrite Hs; reflexivity | exact Hc].
Defined.

(** ** The totals of the cost monitor *)

Section RunningSums.

Variable key_of : cost_data_dict -> string.

Lemma bucket_costs_cons k e es :
  bucket_costs key_of k (e :: es)
  = if decide (key_of e = k) then event_cost e :: bucket_costs key_of k es
    else bucket_costs key_of k es.
Proof.
  unfold bucket_costs. rewrite filter_cons.
  destruct (decide (key_of e = k)); reflexivity.
Qed.

Lemma bump_all_lookup es : forall d k,
  fold_left (fun d e => dict_iadd (key_of e) (event_cost e)
                          (dict_init_zero (key_of e) d)) es d !! k
  = match bucket_costs key_of k es with
    | [] => d !! k
    | costs => Some (fold_left Qplus costs (default 0%Q (d !! k)))
    end.
Proof.
  induction es as [|e es IH]; intros d k; [reflexivity |].
  cbn [fold_left]. rewrite IH, bucket_costs_cons.
  destruct (decide (key_of e = k)) as [-> | Hne].
  - rewrite bump_lookup. destruct (bucket_costs key_of _ es); reflexivity.
  - rewrite (bump_lookup_ne _ _ _ _ Hne). reflexivity.
Qed.

Lemma bucket_costs_all k es :
  Forall (fun e => key_of e = k) es ->
  bucket_costs key_of k es = event_cost <$> es.
Proof.
  induction 1 as [|e es He _ IH]; [reflexivity |].
  rewrite bucket_costs_cons, decide_True by exact He.
  rewrite fmap_cons, IH. reflexivity.
Qed.

End RunningSums.

Lemma process_all_running_total es : forall self,
  total_cost (process_all self es)
  = fold_left Qplus (event_cost <$> es) (total_cost self).
Proof.
  induction es as [|e es IH]; intros self; [reflexivity |].
  rewrite process_all_cons, IH. reflexivity.
Qed.

Lemma process_all_by_agent es : forall self,
  cost_by_agent (process_all self es)
  = fold_left (fun d e => dict_iadd (agent_key e) (event_cost e)
                            (dict_init_zero (agent_key e) d))
      es (cost_by_agent self).
Proof.
  induction es as [|e es IH]; intros self; [reflexivity |].
  rewrite process_all_cons, IH. reflexivity.
Qed.

Lemma process_all_by_model es : forall self,
  cost_by_model (process_all self es)
  = fold_left (fun d e => dict_iadd (model_key e) (event_cost e)
                            (dict_init_zero (model_key e) d))
      es (cost_by_model self).
Proof.
  induction es as [|e es IH]; intros self; [reflexivity |].
  rewrite process_all_cons, IH. reflexivity.
Qed.

Lemma bucket_agent_from_init es k :
  cost_by_agent (process_all CostMonitor_init es) !! k
  = bucket_of (bucket_costs agent_key k es).
Proof.
  rewrite process_all_by_agent, bump_all_lookup.
  cbn [cost_by_agent CostMonitor_init]. rewrite lookup_empty.
  destruct (bucket_costs agent_key k es); reflexivity.
Qed.

Lemma bucket_model_from_init es k :
  cost_by_model (process_all CostMonitor_init es) !! k
  = bucket_of (bucket_costs model_key k es).
Proof.
  rewrite process_all_by_model, bump_all_lookup.
  cbn [cost_by_model CostMonitor_init]. rewrite lookup_empty.
  destruct (bucket_costs model_key k es); reflexivity.
Qed.

(** Every event goes to the bucket [k]: the bucket is the total. *)
Lemma single_bucket_is_total key_of es k :
  es <> [] -> Forall (fun e => key_of e = k) es ->
  bucket_of (bucket_costs key_of k es)
  = Some (total_cost (process_all CostMonitor_init es)).
Proof.
  intros Hne Hall. rewrite (bucket_costs_all key_of k es Hall).
  rewrite process_all_running_total.
  destruct es as [|e es]; [congruence | reflexivity].
Qed.

(** X12. The monitor adds the costs up in the order in which the events
    arrive. From zeroed accumulators the total is the running sum of all
    costs, and the bucket of an agent, and that of a model, is the running
    sum of the costs of its own events; a key that no event names has no
    bucket. The snapshot shows these numbers. When every event names the
    same agent, or the same model, its bucket and the total are the same
    number. *)
Theorem buckets_are_running_sums
    (events : list cost_data_dict) (k : string) (now : string) :
  let stats := get_statistics (process_all CostMonitor_init events) now in
  st_total_cost stats = running_sum (event_cost <$> events)
  /\ st_cost_by_agent stats !! k = bucket_of (bucket_costs agent_key k events)
  /\ st_cost_by_model stats !! k = bucket_of (bucket_costs model_key k events)
  /\ (bucket_costs agent_key k events = [] -> st_cost_by_agent stats !! k = None)
  /\ (events <> [] -> Forall (fun e => agent_key e = k) events ->
      st_cost_by_agent stats !! k = Some (st_total_cost stats))
  /\ (events <> [] -> Forall (fun e => model_key e = k) events ->
      st_cost_by_model stats !! k = Some (st_total_cost stats)).
Proof.
  cbn [get_statistics st_total_cost st_cost_by_agent st_cost_by_model].
  split; [apply process_all_running_total |].
  split; [apply bucket_agent_from_init |].
  split; [apply bucket_model_from_init |].
  split; [intros H; rewrite bucket_agent_from_init, H; reflexivity |].
  split; intros Hne Hall.
  - rewrite bucket_agent_from_init. apply single_bucket_is_total; assumption.
  - rewrite bucket_model_from_init. apply single_bucket_is_total; assumption.
Qed.

(** Two replies of the English teacher on the same engine, with costs
    0.005 and 0.007. *)
Lemma buckets_are_running_sums_witness :
  let events := [ telemetry "m1" "english_teacher" "gemini-1.5-flash" (5 # 1000);
                  telemetry "m2" "english_teacher" "gemini-1.5-flash" (7 # 1000) ] in
  let stats := get_statistics (process_all CostMonitor_init events) "now" in
  st_cost_by_agent stats !! "english_teacher" = Some (st_total_cost stats).
Proof.
  intros events stats.
  destruct (buckets_are_running_sums events "english_teacher" "now")
    as (_ & _ & _ & _ & H & _).
  apply H; [discriminate | repeat constructor].
Defined.

Lemma process_all_total_le (events : list cost_data_dict) : forall self,
  Forall (fun e => (0 <= event_cost e)%Q) events ->
  (total_cost self <= total_cost (process_all self events))%Q.
Proof.
  induction events as [|e es IH]; intros self H.
  - apply Qle_refl.
  - inversion H as [|? ? He Hes]; subst.
    rewrite process_all_cons.
    apply Qle_trans with (total_cost (_process_cost_info self e)); [| apply IH, Hes].
    rewrite process_step_total.
    rewrite <- (Qplus_0_r (total_cost self)) at 1.
    apply Qplus_le_compat; [apply Qle_refl | exact He].
Qed.

(** X13. The average of a snapshot never divides by zero: the divisor is
    the message count, and one when no message has been counted. With at
    most one message the average is the total; it is zero for a monitor
    that is new or reset. When the total is not negative, the average lies
    between zero and the total. After a run from zeroed accumulators the
    snapshot counts one message for every event. *)
Theorem average_cost_per_message
    (self : CostMonitor) (events : list cost_data_dict) (now : string) :
  let stats := get_statistics self now in
  1 <= Z.max (message_count self) 1
  /\ st_average_cost_per_message stats
     = (st_total_cost stats / inject_Z (Z.max (st_total_messages stats) 1))%Q
  /\ (message_count self <= 1 ->
      (st_average_cost_per_message stats == st_total_cost stats)%Q)
  /\ ((0 <= total_cost self)%Q ->
      (0 <= st_average_cost_per_message stats)%Q
      /\ (st_average_cost_per_message stats <= st_total_cost stats)%Q)
  /\ (st_average_cost_per_message (get_statistics CostMonitor_init now) == 0)%Q
  /\ (st_average_cost_per_message
        (get_statistics (reset_statistics self) now) == 0)%Q
  /\ st_total_messages (get_statistics (process_all CostMonitor_init events) now)
     = Z.of_nat (length events).
Proof.
  cbn [get_statistics st_average_cost_per_message st_total_messages
         st_total_cost].
  assert (Hpos : forall n, (0 < inject_Z (Z.max n 1))%Q).
  { intros n. change 0%Q with (inject_Z 0). rewrite <- Zlt_Qlt. lia. }
  assert (Hone : forall n, (1 <= inject_Z (Z.max n 1))%Q).
  { intros n. change 1%Q with (inject_Z 1). rewrite <- Zle_Qle. lia. }
  split; [lia |].
  split; [reflexivity |].
  split.
  { intros H. replace (Z.max (message_count self) 1) with 1 by lia.
    change (inject_Z 1) with 1%Q. field. }
  split.
  { intros Htotal. split.
    - apply Qle_shift_div_l; [apply Hpos |]. rewrite Qmult_0_l. exact Htotal.
    - apply Qle_shift_div_r; [apply Hpos |].
      rewrite <- (Qmult_1_l (total_cost self)) at 1.
      rewrite (Qmult_comm (total_cost self) (inject_Z _)).
      apply Qmult_le_compat_r; [apply Hone | exact Htotal]. }
  split; [reflexivity |].
  split; [reflexivity |].
  rewrite process_all_count. cbn [message_count CostMonitor_init]. lia.
Qed.

(** Two replies with costs 0.005 and 0.007: the average is between zero
    and the total. *)
Lemma average_cost_per_message_witness :
  let events := [ telemetry "m1" "english_teacher" "gemini-1.5-flash" (5 # 1000);
                  telemetry "m2" "chinese_teacher" "ollama" (7 # 1000) ] in
  let stats := get_statistics (process_all CostMonitor_init events) "now" in
  (st_average_cost_per_message stats <= st_total_cost stats)%Q.
Proof.
  intros events stats.
  destruct (average_cost_per_message (process_all CostMonitor_init events)
              [] "now") as (_ & _ & _ & H & _).
  apply H. cbv. discriminate.
Defined.

(** X14. Events whose costs are not negative never lower the total cost,
    and the message count never goes down; only a reset does that. *)
Theorem totals_never_decrease
    (self : CostMonitor) (events : list cost_data_dict) :
  0 <= message_count (process_all self events) - message_count self
  /\ (Forall (fun e => (0 <= event_cost e)%Q) events ->
      (total_cost self <= total_cost (process_all self events))%Q).
Proof.
  split.
  - rewrite process_all_count. lia.
  - apply process_all_total_le.
Qed.

Lemma totals_never_decrease_witness :
  (total_cost CostMonitor_init
   <= total_cost (process_all CostMonitor_init
                    [telemetry "m1" "english_teacher" "ollama" (5 # 1000);
                     bare_event]))%Q.
Proof.
  apply (totals_never_decrease CostMonitor_init).
  repeat constructor; discriminate.
Defined.

(** X15. The cost event that a worker derives from a response is complete
    for the monitor: processing it adds the cost of the response to the
    total, to the bucket of the agent type of the response and to the
    bucket of the model of its cost record, and counts one message. It
    never takes the defaults: the bucket of the agent is the one of a
    teacher, and the ["unknown"] bucket by agent stays as it is. *)
Theorem worker_cost_event_is_attributed
    (self : CostMonitor) (response : Response) :
  let self' := _process_cost_info self (cost_data_of response) in
  let cost := cost_usd (cost_info response) in
  let agent := AgentType_value (agent_type response) in
  let model := model_name (cost_info response) in
  carries_cost (cost_data_of response) cost
  /\ total_cost self' = (total_cost self + cost)%Q
  /\ message_count self' = message_count self + 1
  /\ cost_by_agent self' !! agent
     = Some (default 0%Q (cost_by_agent self !! agent) + cost)%Q
  /\ cost_by_model self' !! model
     = Some (default 0%Q (cost_by_model self !! model) + cost)%Q
  /\ (agent = "chinese_teacher" \/ agent = "english_teacher")
  /\ cost_by_agent self' !! "unknown" = cost_by_agent self !! "unknown"
  /\ (forall k, k <> agent -> cost_by_agent self' !! k = cost_by_agent self !! k)
  /\ (forall k, k <> model -> cost_by_model self' !! k = cost_by_model self !! k).
Proof.
  intros self' cost agent model. subst self' cost agent model.
  split; [eexists; split; reflexivity |].
  split; [reflexivity |]. split; [reflexivity |].
  split; [rewrite process_step_by_agent; apply bump_lookup |].
  split; [rewrite process_step_by_model; apply bump_lookup |].
  split; [destruct (agent_type response); auto |].
  split.
  { rewrite process_step_by_agent. apply bump_lookup_ne.
    unfold agent_key. cbn. destruct (agent_type response); discriminate. }
  split; intros k Hk.
  - rewrite process_step_by_agent. apply bump_lookup_ne. cbn. congruence.
  - rewrite process_step_by_model. apply bump_lookup_ne. cbn. congruence.
Qed.

Lemma worker_cost_event_is_attributed_witness :
  let self' := _process_cost_info CostMonitor_init
                 (cost_data_of (sample_response "m1")) in
  cost_by_agent self' !! "chinese_teacher" = None.
Proof.
  intros self'. subst self'.
  destruct (worker_cost_event_is_attributed CostMonitor_init
              (sample_response "m1")) as (_ & _ & _ & _ & _ & _ & _ & H & _).
  rewrite H; [reflexivity | discriminate].
Defined.

(** ** From the request to the reply *)

Section Order.

Variable v : validator.
Variable agent : BaseAgent.
Variable b : broker.

Lemma reply_keys_process elapsed now message_data w :
  reply_keys (snd (_process_message v agent b elapsed now message_data w))
  = (reply_keys w ++ parsed_ids v [(message_data, elapsed, now)])%list.
Proof.
  cbn [parsed_ids].
  destruct (Message_parse v message_data) as [message|e] eqn:H.
  - destruct (process_message_returns agent message elapsed now)
      as (response & Hr & Hid & _).
    rewrite (_process_message_decoded _ _ _ _ _ _ _ _ _ H Hr), send_both_eq.
    unfold reply_keys. cbn [snd attempts].
    rewrite filter_app, fmap_app. f_equal.
    cbn. repeat case_decide; try discriminate; try congruence.
    cbn. rewrite Hid. reflexivity.
  - rewrite (_process_message_undecodable _ _ _ _ _ _ _ _ H).
    unfold reply_keys. cbn [snd attempts]. rewrite app_nil_r. reflexivity.
Qed.

Lemma reply_keys_consume polled : forall w,
  reply_keys (consume v agent b polled w)
  = (reply_keys w ++ parsed_ids v polled)%list.
Proof.
  induction polled as [|[[message_data elapsed] now] rest IH]; intros w.
  - cbn. rewrite app_nil_r. reflexivity.
  - cbn [consume]. rewrite IH, reply_keys_process. cbn [parsed_ids].
    rewrite <- app_assoc.
    destruct (Message_parse v message_data); reflexivity.
Qed.

Lemma attempts_process elapsed now message_data w :
  exists more,
    attempts (snd (_process_message v agent b elapsed now message_data w))
    = (attempts w ++ more)%list.
Proof.
  destruct (Message_parse v message_data) as [message|e] eqn:H.
  - destruct (process_message_returns agent message elapsed now)
      as (response & Hr & _).
    rewrite (_process_message_decoded _ _ _ _ _ _ _ _ _ H Hr), send_both_eq.
    eexists. reflexivity.
  - rewrite (_process_message_undecodable _ _ _ _ _ _ _ _ H).
    exists []. cbn. rewrite app_nil_r. reflexivity.
Qed.

Lemma attempts_consume polled : forall w,
  exists more, attempts (consume v agent b polled w) = (attempts w ++ more)%list.
Proof.
  induction polled as [|[[message_data elapsed] now] rest IH]; intros w.
  - exists []. cbn. rewrite app_nil_r. reflexivity.
  - cbn [consume].
    destruct (IH (snd (_process_message v agent b elapsed now message_data w)))
      as (more2 & ->).
    destruct (attempts_process elapsed now message_data w) as (more1 & ->).
    exists (more1 ++ more2)%list. rewrite app_assoc. reflexivity.
Qed.

End Order.

Lemma bus_is_attempts_accepting (v : validator) (agent : BaseAgent) polled :
  forall w,
  bus w = attempts w ->
  bus (consume v agent accepting polled w)
  = attempts (consume v agent accepting polled w).
Proof.
  induction polled as [|[[message_data elapsed] now] rest IH]; intros w Hw.
  - exact Hw.
  - cbn [consume]. apply IH.
    destruct (Message_parse v message_data) as [message|e] eqn:H.
    + destruct (process_message_returns agent message elapsed now)
        as (response & Hr & _).
      rewrite (_process_message_decoded _ _ _ _ _ _ _ _ _ H Hr), send_both_eq.
      cbn [snd bus attempts accepted accepting]. rewrite Hw. reflexivity.
    + rewrite (_process_message_undecodable _ _ _ _ _ _ _ _ H). exact Hw.
Qed.

(** X16. A worker answers in the order in which it polls: the keys of the
    replies it sends are the identifiers of the polled messages that
    deserialise, in the same order, after the keys of the replies sent
    before. It only ever adds to what it has sent, and with a broker that
    accepts every record, what is on the bus is what was sent, in that
    order. *)
Theorem worker_replies_in_polled_order
    (v : validator) (agent : BaseAgent) (b : broker)
    (polled : list (message_dict * Q * string)) (w : world) :
  reply_keys (consume v agent b polled w)
  = (reply_keys w ++ parsed_ids v polled)%list
  /\ (exists more,
        attempts (consume v agent b polled w) = (attempts w ++ more)%list)
  /\ bus (consume v agent accepting polled empty_world)
     = attempts (consume v agent accepting polled empty_world).
Proof.
  split; [apply reply_keys_consume |].
  split; [apply attempts_consume |].
  apply bus_is_attempts_accepting. reflexivity.
Qed.

(** X17. From the request to its caller. A worker polls a request that
    deserialises and whose identifier is not empty, and the broker accepts
    the reply: then the reply is on the bus under the key of the request,
    and when the listener handles it during a turn of [ask_question] for
    this identifier that is still within the 30 seconds, [ask_question]
    returns exactly this reply, which names the request and the type of
    the agent. *)
Theorem request_reply_round_trip
    (v : validator) (agent : BaseAgent) (b : broker) (elapsed : Q)
    (now : string) (message_data : message_dict) (message : Message)
    (w : world) (start_time clock : Q) (self : TeachingSystemCLI)
    (before after : list (Q * list response_dict))
    (earlier later : list response_dict) :
  let id := msg_message_id message in
  Message_parse v message_data = Ok message ->
  id <> "" ->
  b (length (attempts w)) = None ->
  responses self !! id = None ->
  silent id before ->
  in_time 30 start_time before ->
  (clock - start_time <= 30)%Q ->
  quiet id later ->
  exists response self',
    process_message agent message elapsed now = Ok response
    /\ In (reply_record response)
         (bus (snd (_process_message v agent b elapsed now message_data w)))
    /\ sent_key (reply_record response) = id
    /\ sent_value (reply_record response) = ResponseDict (Response_dict response)
    /\ ask_question (SendOk id) start_time
         (before
            ++ (clock, (earlier ++ Response_dict response :: later)%list)
            :: after)%list self
       = Some (Response_dict response, self')
    /\ rd_message_id (Response_dict response) = Some id
    /\ rd_agent_type (Response_dict response)
       = Some (AgentType_value (self_agent_type agent)).
Proof.
  intros id Hparse Hid Hb Hn Hs Ht Hclock Hq.
  destruct (process_message_returns agent message elapsed now)
    as (response & Hr & Hrid & Hty).
  destruct (wait_loop_goes_on id 30 start_time before self Hn Hs Ht)
    as (self1 & Hn1 & Heq).
  assert (Hrd : rd_message_id (Response_dict response) = Some id).
  { cbn. rewrite Hrid. reflexivity. }
  exists response. eexists.
  split; [exact Hr |].
  split.
  { rewrite (_process_message_decoded _ _ _ _ _ _ _ _ _ Hparse Hr), send_both_eq.
    cbn [snd bus]. unfold accepted at 1. rewrite Hb.
    apply in_or_app. right. left. reflexivity. }
  split; [exact Hrid |]. split; [reflexivity |].
  split.
  { unfold ask_question.
    rewrite Heq, (wait_loop_turn _ _ _ _ _ _ _ Hn1), (Qgtb_false _ _ Hclock).
    apply wait_loop_found, _listen_responses_delivers; assumption. }
  split; [exact Hrd |].
  cbn. rewrite Hty. reflexivity.
Qed.

(** The sample request, answered by an agent whose engine raises, and
    delivered in the first turn of the wait. *)
Lemma request_reply_round_trip_witness :
  let agent := sample_agent (fun _ => Raise "connection refused") in
  exists response self',
    process_message agent sample_message 0 "now" = Ok response
    /\ ask_question (SendOk "m1") 0 [(1%Q, [Response_dict response])] empty_cli
       = Some (Response_dict response, self').
Proof.
  intros agent.
  destruct (request_reply_round_trip sample_validator agent accepting 0 "now"
              (sample_request (Some "Hello, how are you?")) sample_message
              empty_world 0 1 empty_cli [] [] [] [])
    as (response & self' & Hr & _ & _ & _ & Hw & _).
  - reflexivity.
  - discriminate.
  - reflexivity.
  - reflexivity.
  - constructor.
  - constructor.
  - discriminate.
  - constructor.
  - exists response, self'. split; [exact Hr | exact Hw].
Defined.

Section Listener.

Implicit Types (self : TeachingSystemCLI) (r : response_dict).

Lemma on_response_dom self r :
  dom (responses (on_response self r))
  = dom (responses self) ∪ list_to_set (stored_ids [r]).
Proof.
  unfold on_response. cbn [stored_ids].
  destruct (rd_message_id r) as [id|].
  - destruct (truthy id); cbn [responses].
    + rewrite dom_insert_L, list_to_set_cons, list_to_set_nil.
      apply set_eq. intros x. rewrite !elem_of_union, elem_of_empty. tauto.
    + rewrite list_to_set_nil.
      apply set_eq. intros x. rewrite elem_of_union, elem_of_empty. tauto.
  - rewrite list_to_set_nil.
    apply set_eq. intros x. rewrite elem_of_union, elem_of_empty. tauto.
Qed.

Lemma stored_ids_cons r polled :
  stored_ids (r :: polled) = (stored_ids [r] ++ stored_ids polled)%list.
Proof.
  cbn [stored_ids]. destruct (rd_message_id r) as [id|]; [| reflexivity].
  destruct (truthy id); reflexivity.
Qed.

Lemma _listen_responses_dom polled : forall self,
  dom (responses (_listen_responses self polled))
  = dom (responses self) ∪ list_to_set (stored_ids polled).
Proof.
  induction polled as [|r polled IH]; intros self.
  - cbn [_listen_responses fold_left stored_ids]. rewrite list_to_set_nil.
    apply set_eq. intros x. rewrite elem_of_union, elem_of_empty. tauto.
  - change (_listen_responses self (r :: polled))
      with (_listen_responses (on_response self r) polled).
    rewrite IH, on_response_dom, (stored_ids_cons r polled), list_to_set_app_L.
    apply set_eq. intros x. rewrite !elem_of_union. tauto.
Qed.

Lemma _listen_responses_event polled : forall self,
  response_event (_listen_responses self polled)
  = response_event self || negb (Nat.eqb (length (stored_ids polled)) 0).
Proof.
  induction polled as [|r polled IH]; intros self.
  - cbn. rewrite orb_false_r. reflexivity.
  - change (_listen_responses self (r :: polled))
      with (_listen_responses (on_response self r) polled).
    rewrite IH. unfold on_response. cbn [stored_ids].
    destruct (rd_message_id r) as [id|]; [| reflexivity].
    destruct (truthy id); [| reflexivity].
    cbn. rewrite orb_true_r. reflexivity.
Qed.

End Listener.

(** X18. The listener only adds to the collection: afterwards it holds the
    identifiers it held before and the non-empty identifiers of the polled
    replies, so nothing is ever taken out by listening. Under an
    identifier it holds the last reply polled with it, an earlier one with
    the same identifier being overwritten, and it has set the event when
    it stored anything. *)
Theorem listener_only_adds
    (self : TeachingSystemCLI) (polled earlier later : list response_dict)
    (first last : response_dict) (id : string) :
  dom (responses (_listen_responses self polled))
  = dom (responses self) ∪ list_to_set (stored_ids polled)
  /\ (forall k, is_Some (responses self !! k) ->
        is_Some (responses (_listen_responses self polled) !! k))
  /\ response_event (_listen_responses self polled)
     = response_event self || negb (Nat.eqb (length (stored_ids polled)) 0)
  /\ (id <> "" -> rd_message_id first = Some id -> rd_message_id last = Some id ->
      quiet id later ->
      responses
        (_listen_responses self (first :: earlier ++ last :: later)%list) !! id
      = Some last).
Proof.
  split; [apply _listen_responses_dom |].
  split.
  { intros k Hk. apply elem_of_dom. rewrite _listen_responses_dom.
    apply elem_of_union_l, elem_of_dom, Hk. }
  split; [apply _listen_responses_event |].
  intros Hid _ Hlast Hq.
  apply (_listen_responses_delivers self id last (first :: earlier) later);
    assumption.
Qed.

(** Two replies for "m1": the second one is kept. *)
Lemma listener_only_adds_witness :
  let second := Response_dict
                  {| message_id := "m1"; success := false;
                     content := "Processing failed: busy";
                     agent_type := ENGLISH_TEACHER;
                     cost_info := cost_info (sample_response "m1");
                     response_time := 1; timestamp := "2025-01-01T00:00:03" |} in
  responses (_listen_responses empty_cli
               (sample_reply "m1" :: [] ++ second :: [])%list) !! "m1"
  = Some second.
Proof.
  intros second.
  destruct (listener_only_adds empty_cli [] [] [] (sample_reply "m1") second "m1")
    as (_ & _ & _ & H).
  apply H; [discriminate | reflexivity | reflexivity | constructor].
Defined.

(** ** The life cycle of the workers *)

Section Manager.

Implicit Types (consumers : gmap string AgentConsumer) (c : AgentConsumer).

Lemma AgentConsumer_start_running c :
  ac_running (AgentConsumer_start c) = true.
Proof. unfold AgentConsumer_start. destruct (ac_running c) eqn:E; auto. Qed.

Lemma AgentConsumer_start_idem c :
  AgentConsumer_start (AgentConsumer_start c) = AgentConsumer_start c.
Proof.
  unfold AgentConsumer_start at 1.
  rewrite AgentConsumer_start_running. reflexivity.
Qed.

Lemma registered_dom (agents : list (BaseAgent * list string)) :
  forall consumers,
    dom (fold_left (fun cs '(agent, topics) => add_agent_consumer cs agent topics)
           agents consumers)
    ⊆ dom consumers ∪ {[AgentType_str CHINESE_TEACHER;
                         AgentType_str ENGLISH_TEACHER]}.
Proof.
  induction agents as [|[agent topics] agents IH]; intros consumers;
    apply elem_of_subseteq; intros x Hx.
  - cbn in Hx. apply elem_of_union. left. exact Hx.
  - cbn [fold_left] in Hx.
    apply (proj1 (elem_of_subseteq _ _) (IH _)) in Hx.
    unfold add_agent_consumer in Hx. rewrite dom_insert_L in Hx.
    rewrite !elem_of_union, !elem_of_singleton in Hx.
    rewrite !elem_of_union, !elem_of_singleton.
    destruct Hx as [[Hx | Hx] | Hx]; auto.
    subst x. right. destruct (self_agent_type agent); auto.
Qed.

End Manager.

(** X19. After [start_all] every registered consumer reports running, and
    after [stop_all] none does; the keys of the status are the keys of the
    manager. Starting what is started changes nothing, in particular no
    second thread is created; a consumer that was stopped gets a new
    thread when it is started again. *)
Theorem start_and_stop_all
    (consumers : gmap string AgentConsumer) (c : AgentConsumer) :
  get_status (start_all consumers) = (fun _ => true) <$> consumers
  /\ get_status (stop_all consumers) = (fun _ => false) <$> consumers
  /\ get_status (stop_all (start_all consumers)) = (fun _ => false) <$> consumers
  /\ dom (get_status consumers) = dom consumers
  /\ start_all (start_all consumers) = start_all consumers
  /\ ac_thread (AgentConsumer_start (AgentConsumer_init (ac_agent c) (ac_topics c)))
     = Some O
  /\ (ac_running c = true ->
      ac_thread (AgentConsumer_start c) = ac_thread c)
  /\ (forall n, ac_thread c = Some n ->
      ac_thread (AgentConsumer_start (AgentConsumer_stop c)) = Some (S n)).
Proof.
  unfold get_status, start_all, stop_all.
  repeat match goal with |- _ /\ _ => split end.
  - rewrite <- map_fmap_compose. apply map_fmap_ext.
    intros k x _. apply AgentConsumer_start_running.
  - rewrite <- map_fmap_compose. apply map_fmap_ext. reflexivity.
  - rewrite <- !map_fmap_compose. apply map_fmap_ext. reflexivity.
  - apply dom_fmap_L.
  - rewrite <- map_fmap_compose. apply map_fmap_ext.
    intros k x _. apply AgentConsumer_start_idem.
  - reflexivity.
  - intros H. unfold AgentConsumer_start. rewrite H. reflexivity.
  - intros n H. cbn. rewrite H. reflexivity.
Qed.

Lemma start_and_stop_all_witness :
  let c := AgentConsumer_start
             (AgentConsumer_init (sample_agent (fun _ => Raise "unused"))
                ["english_teacher"]) in
  ac_thread (AgentConsumer_start c) = Some O
  /\ ac_thread (AgentConsumer_start (AgentConsumer_stop c)) = Some 1%nat.
Proof.
  intros c.
  destruct (start_and_stop_all ∅ c) as (_ & _ & _ & _ & _ & _ & H1 & H2).
  split; [exact (H1 eq_refl) | exact (H2 O eq_refl)].
Defined.

(** X20. A registration puts a consumer that is not running under the key
    of the type of its agent and leaves the other keys alone. A second
    registration for the same type replaces the first consumer without
    stopping it: the manager then reports the type as not running although
    it had been started. Whatever is registered, the manager never holds
    more than two consumers, one for each type. *)
Theorem registration_replaces
    (consumers : gmap string AgentConsumer) (agent : BaseAgent)
    (topics : list string) (agents : list (BaseAgent * list string)) :
  let key := AgentType_str (self_agent_type agent) in
  get_status (add_agent_consumer consumers agent topics) !! key = Some false
  /\ (forall k, k <> key ->
        add_agent_consumer consumers agent topics !! k = consumers !! k)
  /\ get_status (add_agent_consumer (start_all consumers) agent topics) !! key
     = Some false
  /\ (is_Some (consumers !! key) ->
      size (add_agent_consumer consumers agent topics) = size consumers)
  /\ (consumers !! key = None ->
      size (add_agent_consumer consumers agent topics) = S (size consumers))
  /\ (size (registered agents) <= 2)%nat.
Proof.
  intros key. subst key. unfold get_status, add_agent_consumer.
  repeat match goal with |- _ /\ _ => split end.
  - rewrite lookup_fmap, lookup_insert_eq. reflexivity.
  - intros k Hk. apply lookup_insert_ne. congruence.
  - rewrite lookup_fmap, lookup_insert_eq. reflexivity.
  - intros [c Hc]. rewrite <- (insert_delete_eq consumers).
    rewrite map_size_insert_None by apply lookup_delete_eq.
    rewrite <- (insert_delete_id _ _ _ Hc) at 2.
    rewrite map_size_insert_None by apply lookup_delete_eq. reflexivity.
  - intros H. apply map_size_insert_None, H.
  - unfold registered. rewrite <- size_dom.
    pose proof (registered_dom agents ∅) as Hsub.
    apply subseteq_size in Hsub. etransitivity; [exact Hsub |].
    rewrite dom_empty_L, (left_id_L ∅ (∪)).
    rewrite size_union by (apply disjoint_singleton_l; rewrite elem_of_singleton;
                           discriminate).
    rewrite !size_singleton. reflexivity.
Qed.

Lemma registration_replaces_witness :
  let agent := sample_agent (fun _ => Raise "unused") in
  let consumers := add_agent_consumer ∅ agent ["english_teacher"] in
  size (add_agent_consumer consumers agent ["english_teacher"]) = size consumers.
Proof.
  intros agent consumers.
  destruct (registration_replaces consumers agent ["english_teacher"] [])
    as (_ & _ & _ & H & _).
  apply H. eexists. apply lookup_insert_eq.
Defined.

(** ** The summary *)

Lemma py_max_positive (total : Q) : (0 < py_max total (1 # 1000000))%Q.
Proof.
  unfold py_max, Qgtb.
  destruct (Qle_bool (1 # 1000000) total) eqn:E; cbn [negb].
  - apply Qle_bool_iff in E.
    apply Qlt_le_trans with (1 # 1000000); [reflexivity | exact E].
  - reflexivity.
Qed.

Lemma py_max_total (total : Q) :
  (1 # 1000000 < total)%Q -> py_max total (1 # 1000000) = total.
Proof.
  intros H. unfold py_max, Qgtb.
  assert (E : Qle_bool (1 # 1000000) total = true).
  { apply Qle_bool_iff, Qlt_le_weak, H. }
  rewrite E. reflexivity.
Qed.

Lemma percentage_le_100 (total cost : Q) :
  (cost <= total)%Q -> (1 # 1000000 < total)%Q ->
  (percentage total cost <= 100)%Q.
Proof.
  intros Hle Hbig. unfold percentage. rewrite (py_max_total _ Hbig).
  assert (Hpos : (0 < total)%Q)
    by (apply Qlt_trans with (1 # 1000000); [reflexivity | exact Hbig]).
  apply Qle_trans with (1 * 100)%Q; [| discriminate].
  apply Qmult_le_compat_r; [| discriminate].
  apply Qle_shift_div_r; [exact Hpos |]. rewrite Qmult_1_l. exact Hle.
Qed.

Lemma percentage_whole (total : Q) :
  (1 # 1000000 < total)%Q -> (percentage total total == 100)%Q.
Proof.
  intros Hbig. unfold percentage. rewrite (py_max_total _ Hbig).
  field. intros Hz. rewrite Hz in Hbig. discriminate Hbig.
Qed.

(** X21. The shares that the summary prints never divide by zero: a total
    below 0.000001 is replaced by 0.000001, and the share is then the cost
    over that number. The summary has one line for every bucket, with its
    cost and the share of that cost. A cost of zero has the share zero, a
    cost that is not negative a share that is not negative, and with a
    total above 0.000001 a cost up to the total has a share up to 100 and
    the total itself the share 100. So when every event names the same
    agent, the line of that agent shows 100. *)
Theorem summary_shares
    (self : CostMonitor) (events : list cost_data_dict) (k : string) (cost : Q) :
  let total := total_cost self in
  (0 < py_max total (1 # 1000000))%Q
  /\ (forall key c share,
        (key, c, share) ∈ summary_lines total (cost_by_agent self)
        <-> cost_by_agent self !! key = Some c /\ share = percentage total c)
  /\ ((cost == 0)%Q -> (percentage total cost == 0)%Q)
  /\ ((0 <= cost)%Q -> (0 <= percentage total cost)%Q)
  /\ ((cost <= total)%Q -> (1 # 1000000 < total)%Q ->
      (percentage total cost <= 100)%Q)
  /\ ((1 # 1000000 < total)%Q -> (percentage total total == 100)%Q)
  /\ ((total < 1 # 1000000)%Q ->
      percentage total cost = (cost / (1 # 1000000) * 100)%Q)
  /\ (let final := process_all CostMonitor_init events in
      Forall (fun e => agent_key e = k) events ->
      (1 # 1000000 < total_cost final)%Q ->
      exists c share,
        (k, c, share) ∈ summary_lines (total_cost final) (cost_by_agent final)
        /\ (share == 100)%Q).
Proof.
  intros total. subst total.
  assert (Hlines : forall total buckets key c share,
            (key, c, share) ∈ summary_lines total buckets
            <-> buckets !! key = Some c /\ share = percentage total c).
  { intros total buckets key c share. unfold summary_lines.
    rewrite list_elem_of_fmap. split.
    - intros ([key' c'] & Heq & Hin). injection Heq as -> -> ->.
      apply elem_of_map_to_list in Hin. split; [exact Hin | reflexivity].
    - intros [Hin ->]. exists (key, c). split; [reflexivity |].
      apply elem_of_map_to_list, Hin. }
  pose proof (py_max_positive (total_cost self)) as Hpos.
  split; [exact Hpos |].
  split; [apply Hlines |].
  split.
  { intros Hc. unfold percentage. rewrite Hc.
    field. intros Hz. rewrite Hz in Hpos. exact (Qlt_irrefl _ Hpos). }
  split.
  { intros Hc. unfold percentage.
    apply Qmult_le_0_compat; [| discriminate].
    apply Qle_shift_div_l; [exact Hpos |]. rewrite Qmult_0_l. exact Hc. }
  split; [apply percentage_le_100 |].
  split; [apply percentage_whole |].
  split.
  { intros Hsmall. unfold percentage, py_max.
    rewrite (Qgtb_true _ _ Hsmall). reflexivity. }
  intros final Hall Hbig. subst final.
  assert (Hne : events <> []).
  { intros ->. discriminate Hbig. }
  exists (total_cost (process_all CostMonitor_init events)).
  eexists. split.
  - apply Hlines. split; [| reflexivity].
    rewrite bucket_agent_from_init. apply single_bucket_is_total; assumption.
  - apply percentage_whole, Hbig.
Qed.

(** Two replies of the English teacher, with costs 0.005 and 0.007: the
    line of the English teacher shows 100. *)
Lemma summary_shares_witness :
  let final := process_all CostMonitor_init
                 [ telemetry "m1" "english_teacher" "gemini-1.5-flash" (5 # 1000);
                   telemetry "m2" "english_teacher" "ollama" (7 # 1000) ] in
  exists c share,
    (("english_teacher", c, share) : string * Q * Q)
      ∈ summary_lines (total_cost final) (cost_by_agent final)
    /\ (share == 100)%Q.
Proof.
  intros final.
  destruct (summary_shares CostMonitor_init
              [ telemetry "m1" "english_teacher" "gemini-1.5-flash" (5 # 1000);
                telemetry "m2" "english_teacher" "ollama" (7 # 1000) ]
              "english_teacher" 0)
    as (_ & _ & _ & _ & _ & _ & _ & H).
  apply H; [repeat constructor | reflexivity].
Defined.
